(** * kiro-gateway: the Q Developer request builder, event parser and headers

    A shallow embedding of [kiro/q_api.py] and [kiro/utils.py].  Python
    values that travel through the translator are JSON values; a [dict] is a
    finite map with string keys; a Python exception is a value of [exn]
    threaded through the error monad [result]. *)

From Stdlib Require Import ZArith Lia Ascii.
From stdpp Require Import base option list strings gmap.

Set Warnings "-register-all".

(** ** Python values *)

Module Py.

(** The values [json.loads] can produce.  The code never computes with
    numbers (it only compares and forwards them), so integers stand for all
    of them. *)
Inductive json :=
  | JNull
  | JBool (b : bool)
  | JNum (z : Z)
  | JStr (s : string)
  | JList (l : list json)
  | JObj (o : gmap string json).

Abbreviation dict := (gmap string json).

Fixpoint json_eq_dec (a b : json) : Decision (a = b).
Proof.
  refine
    (match a, b with
     | JNull, JNull => left eq_refl
     | JBool x, JBool y => cast_if (decide (x = y))
     | JNum x, JNum y => cast_if (decide (x = y))
     | JStr x, JStr y => cast_if (decide (x = y))
     | JList x, JList y =>
         cast_if (@decide (x = y) (@list_eq_dec _ json_eq_dec x y))
     | JObj x, JObj y =>
         cast_if (@decide (x = y) (@gmap_eq_dec _ _ _ _ json_eq_dec x y))
     | _, _ => right _
     end); congruence.
Defined.

#[global] Instance json_eq : EqDecision json := json_eq_dec.
#[global] Instance json_inhabited : Inhabited json := populate JNull.

(** The exceptions the translated functions can raise. *)
Inductive exn :=
  | KeyError (key : string)
  | AttributeError (attr : string)
  | TypeError.

Inductive result (A : Type) :=
  | Ok (a : A)
  | Raise (e : exn).
Arguments Ok {A} a.
Arguments Raise {A} e.

#[global] Instance result_ret : MRet result := fun A a => Ok a.
#[global] Instance result_bind : MBind result :=
  fun A B f m => match m with Ok a => f a | Raise e => Raise e end.
#[global] Instance result_fmap : FMap result :=
  fun A B f m => match m with Ok a => Ok (f a) | Raise e => Raise e end.

Definition is_ok {A} (m : result A) : Prop := exists a, m = Ok a.

(** [for x in l: acc.append(f(x))], stopping at the first exception. *)
Fixpoint mapR {A B} (f : A -> result B) (l : list A) : result (list B) :=
  match l with
  | [] => Ok []
  | x :: l' => y ← f x; ys ← mapR f l'; Ok (y :: ys)
  end.

(** [bool(v)]: what [if v:] and [v or w] test. *)
Definition truthy (v : json) : bool :=
  match v with
  | JNull => false
  | JBool b => b
  | JNum z => negb (z =? 0)%Z
  | JStr s => negb (bool_decide (s = EmptyString))
  | JList l => negb (bool_decide (l = []))
  | JObj o => negb (bool_decide (o = ∅))
  end.

(** [v or w]. *)
Definition py_or (v w : json) : json := if truthy v then v else w.

(** [==] on JSON values: structural, except that [True == 1] and
    [False == 0]; [numeric] sends both sides to the common form. *)
Fixpoint numeric (v : json) : json :=
  match v with
  | JBool b => JNum (if b then 1 else 0)
  | JList l => JList (numeric <$> l)
  | JObj o => JObj (numeric <$> o)
  | _ => v
  end.

Definition py_eq (v w : json) : bool := bool_decide (numeric v = numeric w).

(** [d.get(k, default)] on a dict. *)
Definition get (d : dict) (k : string) (default : json) : json :=
  match d !! k with Some v => v | None => default end.

(** [v.get(k, default)] on a value that is hoped to be a dict: every other
    JSON value has no attribute [get]. *)
Definition py_get (v : json) (k : string) (default : json) : result json :=
  match v with
  | JObj d => Ok (get d k default)
  | _ => Raise (AttributeError "get")
  end.

(** [v[k]] with a string key. *)
Definition getitem (v : json) (k : string) : result json :=
  match v with
  | JObj d => match d !! k with Some x => Ok x | None => Raise (KeyError k) end
  | _ => Raise TypeError
  end.

(** [v[k] = x], in place; the caller writes the new object back. *)
Definition setitem (v : json) (k : string) (x : json) : result json :=
  match v with
  | JObj d => Ok (JObj (<[k := x]> d))
  | _ => Raise TypeError
  end.

Definition nl : string := String "010"%char EmptyString.

(** [sep.join(parts)]: a [TypeError] when an item is not a [str]. *)
Fixpoint join (sep : string) (parts : list json) : result string :=
  match parts with
  | [] => Ok EmptyString
  | [JStr s] => Ok s
  | JStr s :: rest => r ← join sep rest; Ok (s +:+ sep +:+ r)
  | _ :: _ => Raise TypeError
  end.

(** [s[:n]]: the first [n] characters.  A string is kept as its UTF-8
    bytes, and a character is a byte that opens it followed by its
    continuation bytes (the bytes 0x80 to 0xBF). *)
Definition is_continuation (c : ascii) : bool :=
  match c with Ascii _ _ _ _ _ _ b6 b7 => b7 && negb b6 end.

Fixpoint str_prefix (n : nat) (s : string) : string :=
  match s with
  | EmptyString => EmptyString
  | String c rest =>
      if is_continuation c then String c (str_prefix n rest)
      else match n with
           | O => EmptyString
           | S n' => String c (str_prefix n' rest)
           end
  end.

End Py.
Import Py.

(** ** kiro/q_api.py: the request builder *)

Module QApi.

Definition Q_SERVICE_GENERATE_ASSISTANT : string :=
  "AmazonCodeWhispererStreamingService.GenerateAssistantResponse".
Definition Q_SERVICE_INVOKE_MCP : string :=
  "AmazonCodeWhispererStreamingService.InvokeMCP".
Definition Q_SERVICE_LIST_PROFILES : string :=
  "AmazonCodeWhispererService.ListAvailableProfiles".
Definition Q_SERVICE_LIST_MODELS : string :=
  "AmazonCodeWhispererService.ListAvailableModels".
Definition Q_SERVICE_GET_PROFILE : string :=
  "AmazonCodeWhispererService.GetProfile".
Definition Q_SERVICE_GET_USAGE_LIMITS : string :=
  "AmazonCodeWhispererService.GetUsageLimits".
Definition Q_SERVICE_SEND_TELEMETRY : string :=
  "AmazonCodeWhispererService.SendTelemetryEvent".
Definition Q_SERVICE_CREATE_SUBSCRIPTION : string :=
  "AmazonCodeWhispererService.CreateSubscriptionToken".

(** Lines 36-55 of [kiro/q_api.py].  [uuid4] is the text of the fresh
    [uuid.uuid4()] of this call. *)
Definition get_q_api_headers (token target : string) (uuid4 : string)
  : gmap string string :=
  {[ "Authorization" := "Bearer " +:+ token;
     "Content-Type" := "application/x-amz-json-1.0";
     "x-amz-target" := target;
     "x-amzn-codewhisperer-optout" := "false";
     "User-Agent" := "AmazonQ-For-CLI/1.23.1";
     "amz-sdk-invocation-id" := uuid4;
     "amz-sdk-request" := "attempt=1; max=3" ]}.

(** Lines 89-94 and 139-144: a list content is flattened to the text of its
    text parts; any other content is kept as it is. *)
Definition text_part (part : json) : option json :=
  match part with
  | JObj p =>
      if py_eq (get p "type" JNull) (JStr "text")
      then Some (get p "text" (JStr EmptyString))
      else None
  | _ => None
  end.

Definition flatten_content (content : json) : result json :=
  match content with
  | JList parts => JStr <$> join nl (omap text_part parts)
  | _ => Ok content
  end.

(** The dict literal of lines 100-107 and 146-153. *)
Definition user_input_message (content : json) : json :=
  JObj {[ "content" := content;
          "userInputMessageContext" :=
            JObj {[ "userSettings" :=
                      JObj {[ "hasConsentedToCrossRegionCalls" := JBool true ]} ]} ]}.

(** The dict literal of lines 110-115. *)
Definition turn (current_message content : json) : json :=
  JObj {[ "userInputMessage" := current_message;
          "assistantResponseMessage" := JObj {[ "content" := content ]} ]}.

(** The two locals of the first loop.  [current_message] is [None] or the
    dict built at line 100, which is never empty, so [if current_message:]
    is the test for [Some]. *)
Record pairing := Pairing {
  history : list json;
  current_message : option json
}.

Definition role_of (msg : dict) : json := get msg "role" (JStr "user").
Definition content_of (msg : dict) : json := get msg "content" (JStr EmptyString).

(** One iteration of the loop of lines 84-116.  The content is flattened
    before the role is looked at. *)
Definition pair_step (st : pairing) (msg : dict) : result pairing :=
  let role := role_of msg in
  content ← flatten_content (content_of msg);
  if py_eq role (JStr "system") then Ok st
  else if py_eq role (JStr "user") then
    Ok (Pairing (history st) (Some (user_input_message content)))
  else if py_eq role (JStr "assistant") then
    match current_message st with
    | Some cm => Ok (Pairing (history st ++ [turn cm content]) None)
    | None => Ok st
    end
  else Ok st.

Fixpoint pair_messages (st : pairing) (messages : list dict) : result pairing :=
  match messages with
  | [] => Ok st
  | msg :: rest => st' ← pair_step st msg; pair_messages st' rest
  end.

(** Lines 136-154: the loop over [reversed(messages)], given the list
    already reversed.  Here the role has no default. *)
Fixpoint last_user_message (rev_messages : list dict) (conversation_state : dict)
  : result dict :=
  match rev_messages with
  | [] => Ok conversation_state
  | msg :: rest =>
      if py_eq (get msg "role" JNull) (JStr "user") then
        content ← flatten_content (content_of msg);
        Ok (<["currentMessage" := user_input_message content]> conversation_state)
      else last_user_message rest conversation_state
  end.

Definition build_conversation_state
    (messages : list dict) (model_id : string)
    (conversation_id : option string) (profile_arn : option string)
    (chat_trigger_type : string) : result dict :=
  st ← pair_messages (Pairing [] None) messages;
  let conversation_state : dict := {[ "chatTriggerType" := JStr chat_trigger_type ]} in
  let conversation_state :=
    match conversation_id with
    | Some cid =>
        if truthy (JStr cid)
        then <["conversationId" := JStr cid]> conversation_state
        else conversation_state
    | None => conversation_state
    end in
  let conversation_state :=
    if truthy (JList (history st))
    then <["history" := JList (history st)]> conversation_state
    else conversation_state in
  match current_message st with
  | Some cm => Ok (<["currentMessage" := cm]> conversation_state)
  | None =>
      if truthy (JList (JObj <$> messages))
      then last_user_message (reverse messages) conversation_state
      else Ok conversation_state
  end.

(** Lines 200-207: the spec of one tool; [None] for a tool that is skipped. *)
Definition tool_spec (tool : dict) : result (option json) :=
  if py_eq (get tool "type" JNull) (JStr "function") then
    let func := get tool "function" (JObj ∅) in
    name ← py_get func "name" (JStr EmptyString);
    description ← py_get func "description" (JStr EmptyString);
    parameters ← py_get func "parameters" (JObj ∅);
    Ok (Some (JObj {[ "name" := name;
                      "description" := description;
                      "inputSchema" := parameters ]}))
  else Ok None.

Fixpoint tool_specs_of (tools : list dict) : result (list json) :=
  match tools with
  | [] => Ok []
  | tool :: rest =>
      spec ← tool_spec tool;
      specs ← tool_specs_of rest;
      Ok (match spec with Some s => s :: specs | None => specs end)
  end.

(** Line 210: [request["conversationState"]["currentMessage"]
    ["userInputMessageContext"]["tools"] = tool_specs].  The three
    subscripts are evaluated from the left, then the innermost dict is
    updated in place.  No other part of [request] shares that dict: a
    current message that was paired into the history was reset to [None]
    at line 116, and lines 146-153 build a new one. *)
Definition attach_tools (request : dict) (tool_specs : list json) : result dict :=
  conversation_state ← getitem (JObj request) "conversationState";
  current_message ← getitem conversation_state "currentMessage";
  context ← getitem current_message "userInputMessageContext";
  context ← setitem context "tools" (JList tool_specs);
  current_message ← setitem current_message "userInputMessageContext" context;
  conversation_state ← setitem conversation_state "currentMessage" current_message;
  Ok (<["conversationState" := conversation_state]> request).

Definition build_generate_assistant_request
    (messages : list dict) (model_id : string)
    (conversation_id : option string) (profile_arn : option string)
    (agent_mode : bool) (tools : option (list dict)) : result dict :=
  conversation_state ←
    build_conversation_state messages model_id conversation_id profile_arn "MANUAL";
  let request : dict := {[ "conversationState" := JObj conversation_state ]} in
  let request := if agent_mode then <["agentMode" := JBool true]> request else request in
  match tools with
  | Some (tool :: rest) =>
      tool_specs ← tool_specs_of (tool :: rest);
      if truthy (JList tool_specs) then attach_tools request tool_specs
      else Ok request
  | _ => Ok request
  end.

(** Lines 334-429.  [k in event_data] followed by [event_data[k]] is the
    lookup of [k]. *)
Definition parse_assistant_response_event (event_data : dict) : result dict :=
  match event_data !! "assistantResponseMessage" with
  | Some msg =>
      message_id ← py_get msg "messageId" (JStr EmptyString);
      content ← py_get msg "content" (JStr EmptyString);
      tool_uses ← py_get msg "toolUses" (JList []);
      references ← py_get msg "references" (JList []);
      followup_prompt ← py_get msg "followupPrompt" JNull;
      cache_point ← py_get msg "cachePoint" JNull;
      reasoning_content ← py_get msg "reasoningContent" JNull;
      Ok {[ "type" := JStr "message";
            "message_id" := message_id;
            "content" := content;
            "tool_uses" := tool_uses;
            "references" := references;
            "followup_prompt" := followup_prompt;
            "cache_point" := cache_point;
            "reasoning_content" := reasoning_content ]}
  | None =>
  match event_data !! "toolUseEvent" with
  | Some tool =>
      tool_use_id ← py_get tool "toolUseId" (JStr EmptyString);
      name ← py_get tool "name" (JStr EmptyString);
      input ← py_get tool "input" (JObj ∅);
      Ok {[ "type" := JStr "tool_use";
            "tool_use_id" := tool_use_id;
            "name" := name;
            "input" := input ]}
  | None =>
  if bool_decide (is_Some (event_data !! "metadataEvent"))
     || bool_decide (is_Some (event_data !! "meteringEvent")) then
      let meta := py_or (get event_data "metadataEvent" JNull)
                        (get event_data "meteringEvent" (JObj ∅)) in
      conversation_id ← py_get meta "conversationId" JNull;
      utterance_id ← py_get meta "utteranceId" JNull;
      total_tokens ← py_get meta "totalTokens" JNull;
      input_tokens ← py_get meta "uncachedInputTokens" JNull;
      output_tokens ← py_get meta "outputTokens" JNull;
      cache_read_tokens ← py_get meta "cacheReadInputTokens" JNull;
      cache_write_tokens ← py_get meta "cacheWriteInputTokens" JNull;
      Ok {[ "type" := JStr "metadata";
            "conversation_id" := conversation_id;
            "utterance_id" := utterance_id;
            "total_tokens" := total_tokens;
            "input_tokens" := input_tokens;
            "output_tokens" := output_tokens;
            "cache_read_tokens" := cache_read_tokens;
            "cache_write_tokens" := cache_write_tokens ]}
  else
  match event_data !! "codeEvent" with
  | Some code =>
      content ← py_get code "content" (JStr EmptyString);
      Ok {[ "type" := JStr "code"; "content" := content ]}
  | None =>
  match event_data !! "followupPromptEvent" with
  | Some followup =>
      content ← py_get followup "content" (JStr EmptyString);
      Ok {[ "type" := JStr "followup"; "content" := content ]}
  | None =>
  match event_data !! "intentsEvent" with
  | Some intents =>
      l ← py_get intents "intents" (JList []);
      Ok {[ "type" := JStr "intents"; "intents" := l ]}
  | None =>
  match event_data !! "invalidStateEvent" with
  | Some error =>
      reason ← py_get error "reason" (JStr "Unknown error");
      Ok {[ "type" := JStr "error"; "reason" := reason ]}
  | None =>
  match event_data !! "supplementaryWebLinksEvent" with
  | Some links =>
      l ← py_get links "supplementaryWebLinks" (JList []);
      Ok {[ "type" := JStr "web_links"; "links" := l ]}
  | None =>
      Ok {[ "type" := JStr "unknown"; "data" := JObj event_data ]}
  end end end end end end end.

(** Lines 447-457: the entry built for one element of [models]. *)
Definition parse_model (default_model : json) (model : json) : result json :=
  id ← py_get model "modelName" (JStr EmptyString);
  name ← py_get model "modelName" (JStr EmptyString);
  context_window ← py_get model "contextWindowTokens" JNull;
  rate_multiplier ← py_get model "rateMultiplier" JNull;
  rate_unit ← py_get model "rateUnit" JNull;
  token_limits ← py_get model "tokenLimits" (JObj ∅);
  supported_input_types ← py_get model "supportedInputTypes" (JList []);
  supports_prompt_cache ← py_get model "supportsPromptCache" (JBool false);
  model_name ← py_get model "modelName" JNull;
  Ok (JObj {[ "id" := id;
              "name" := name;
              "context_window" := context_window;
              "rate_multiplier" := rate_multiplier;
              "rate_unit" := rate_unit;
              "token_limits" := token_limits;
              "supported_input_types" := supported_input_types;
              "supports_prompt_cache" := supports_prompt_cache;
              "is_default" := JBool (py_eq model_name default_model) ]}).

(** What [for model in models] iterates over: the items of a list, the keys
    of a dict, the characters of a string; other values are not iterable. *)
Definition iterate (v : json) : result (list json) :=
  match v with
  | JList l => Ok l
  | JObj o => Ok (JStr <$> (map_to_list o).*1)
  | JStr s => Ok ((fun c => JStr (String c EmptyString)) <$> String.list_ascii_of_string s)
  | _ => Raise TypeError
  end.

Definition parse_list_models_response (response_data : dict) : result (list json) :=
  let models := get response_data "models" (JList []) in
  let default_model := get response_data "defaultModel" JNull in
  items ← iterate models;
  mapR (parse_model default_model) items.

(** [if value: d[key] = value], for an optional argument. *)
Definition set_if_truthy (key : string) (value : option json) (d : dict) : dict :=
  match value with
  | Some v => if truthy v then <[key := v]> d else d
  | None => d
  end.

(** Lines 241-272. *)
Definition build_user_input_message (content : string) (user_intent : option string)
    (editor_state shell_state env_state : option dict)
    (tool_results tools : option (list dict)) : dict :=
  let message : dict := {[ "content" := JStr content ]} in
  let context : dict :=
    {[ "userSettings" := JObj {[ "hasConsentedToCrossRegionCalls" := JBool true ]} ]} in
  let context := set_if_truthy "editorState" (JObj <$> editor_state) context in
  let context := set_if_truthy "shellState" (JObj <$> shell_state) context in
  let context := set_if_truthy "envState" (JObj <$> env_state) context in
  let context :=
    set_if_truthy "toolResults" ((fun l => JList (JObj <$> l)) <$> tool_results) context in
  let context :=
    set_if_truthy "tools" ((fun l => JList (JObj <$> l)) <$> tools) context in
  let message := <["userInputMessageContext" := JObj context]> message in
  set_if_truthy "userIntent" (JStr <$> user_intent) message.

(** Lines 289-296. *)
Definition build_list_models_request (max_results : Z) (model_provider : option string)
  : dict :=
  let request : dict := {[ "maxResults" := JNum max_results ]} in
  set_if_truthy "modelProvider" (JStr <$> model_provider) request.

(** Lines 309-311. *)
Definition build_list_profiles_request (max_results : Z) : dict :=
  {[ "maxResults" := JNum max_results ]}.

(** Lines 328-331. *)
Definition build_get_usage_limits_request (origin resource_type : string) : dict :=
  {[ "origin" := JStr origin; "resourceType" := JStr resource_type ]}.

(** Line 472. *)
Definition parse_list_profiles_response (response_data : dict) : json :=
  get response_data "profiles" (JList []).

(** Lines 485-493. *)
Definition parse_usage_limits_response (response_data : dict) : dict :=
  {[ "limits" := get response_data "limits" (JObj ∅);
     "next_date_reset" := get response_data "nextDateReset" JNull;
     "usage_breakdown" := get response_data "usageBreakdown" (JList []);
     "usage_breakdown_list" := get response_data "usageBreakdownList" (JList []);
     "subscription_info" := get response_data "subscriptionInfo" (JObj ∅);
     "overage_configuration" := get response_data "overageConfiguration" (JObj ∅);
     "user_info" := get response_data "userInfo" (JObj ∅) ]}.

End QApi.

(** ** hashlib.sha256

    [kiro/utils.py] hashes with the standard library's SHA-256 (FIPS 180-4),
    written out here on 32-bit words kept in [Z]. *)

Module Sha256.

Local Open Scope Z_scope.

Definition w32 (x : Z) : Z := x mod 2 ^ 32.
Definition add32 (x y : Z) : Z := w32 (x + y).
Definition rotr (n x : Z) : Z := Z.lor (Z.shiftr x n) (w32 (Z.shiftl x (32 - n))).
Definition shr (n x : Z) : Z := Z.shiftr x n.
Definition not32 (x : Z) : Z := Z.lxor x 0xffffffff.

Definition Ch (x y z : Z) : Z := Z.lxor (Z.land x y) (Z.land (not32 x) z).
Definition Maj (x y z : Z) : Z :=
  Z.lxor (Z.lxor (Z.land x y) (Z.land x z)) (Z.land y z).
Definition Sigma0 (x : Z) : Z := Z.lxor (Z.lxor (rotr 2 x) (rotr 13 x)) (rotr 22 x).
Definition Sigma1 (x : Z) : Z := Z.lxor (Z.lxor (rotr 6 x) (rotr 11 x)) (rotr 25 x).
Definition sigma0 (x : Z) : Z := Z.lxor (Z.lxor (rotr 7 x) (rotr 18 x)) (shr 3 x).
Definition sigma1 (x : Z) : Z := Z.lxor (Z.lxor (rotr 17 x) (rotr 19 x)) (shr 10 x).

(** The round constants and the initial hash value are the first 32 bits of
    the fractional parts of the cube roots, and of the square roots, of the
    first primes. *)
Definition primes : list Z :=
  [ 2; 3; 5; 7; 11; 13; 17; 19; 23; 29; 31; 37; 41; 43; 47; 53; 59; 61; 67; 71;
    73; 79; 83; 89; 97; 101; 103; 107; 109; 113; 127; 131; 137; 139; 149; 151;
    157; 163; 167; 173; 179; 181; 191; 193; 197; 199; 211; 223; 227; 229; 233;
    239; 241; 251; 257; 263; 269; 271; 277; 281; 283; 293; 307; 311 ].

Fixpoint cube_root_bits (n : nat) (x r : Z) : Z :=
  match n with
  | O => r
  | S n' =>
      let c := r + 2 ^ Z.of_nat n' in
      if c * c * c <=? x then cube_root_bits n' x c else cube_root_bits n' x r
  end.

Definition cube_root (x : Z) : Z := cube_root_bits 40 x 0.

Definition K : list Z := (fun p => w32 (cube_root (p * 2 ^ 96))) <$> primes.

Record state := State { ha : Z; hb : Z; hc : Z; hd : Z; he : Z; hf : Z; hg : Z; hh : Z }.

Definition root_bits (p : Z) : Z := w32 (Z.sqrt (p * 2 ^ 64)).

Definition H0 : state :=
  State (root_bits 2) (root_bits 3) (root_bits 5) (root_bits 7)
        (root_bits 11) (root_bits 13) (root_bits 17) (root_bits 19).

(** The message [bytes], then 0x80, zeros up to 56 modulo 64, and the bit
    length on eight bytes, most significant first. *)
Definition be_bytes (n : nat) (x : Z) : list Z :=
  (fun i => Z.land (Z.shiftr x (8 * Z.of_nat i)) 0xff) <$> reverse (seq 0 n).

Definition pad (bytes : list Z) : list Z :=
  let len := Z.of_nat (length bytes) in
  let zeros := Z.to_nat ((55 - len) mod 64) in
  bytes ++ [0x80] ++ replicate zeros 0 ++ be_bytes 8 (8 * len).

Fixpoint be_words (n : nat) (bytes : list Z) : list Z :=
  match n, bytes with
  | S n', b0 :: b1 :: b2 :: b3 :: rest =>
      (b0 * 2 ^ 24 + b1 * 2 ^ 16 + b2 * 2 ^ 8 + b3) :: be_words n' rest
  | _, _ => []
  end.

(** The message schedule: [w] holds the words so far, most recent first. *)
Fixpoint schedule (n : nat) (w : list Z) : list Z :=
  match n with
  | O => w
  | S n' =>
      let at_ i := nth i w 0 in
      schedule n'
        (add32 (add32 (sigma1 (at_ 1%nat)) (at_ 6%nat))
               (add32 (sigma0 (at_ 14%nat)) (at_ 15%nat)) :: w)
  end.

Definition round (s : state) (kw : Z * Z) : state :=
  let t1 := add32 (add32 (add32 (hh s) (Sigma1 (he s)))
                         (add32 (Ch (he s) (hf s) (hg s)) kw.1)) kw.2 in
  let t2 := add32 (Sigma0 (ha s)) (Maj (ha s) (hb s) (hc s)) in
  State (add32 t1 t2) (ha s) (hb s) (hc s) (add32 (hd s) t1) (he s) (hf s) (hg s).

Definition compress (s : state) (block : list Z) : state :=
  let w := reverse (schedule 48 (reverse (be_words 16 block))) in
  let r := foldl round s (zip K w) in
  State (add32 (ha s) (ha r)) (add32 (hb s) (hb r)) (add32 (hc s) (hc r))
        (add32 (hd s) (hd r)) (add32 (he s) (he r)) (add32 (hf s) (hf r))
        (add32 (hg s) (hg r)) (add32 (hh s) (hh r)).

Fixpoint blocks (n : nat) (s : state) (bytes : list Z) : state :=
  match n with
  | O => s
  | S n' => blocks n' (compress s (take 64 bytes)) (drop 64 bytes)
  end.

Definition digest (bytes : list Z) : state :=
  let padded := pad bytes in
  blocks (length padded / 64)%nat H0 padded.

Definition hex_digits : list ascii := String.list_ascii_of_string "0123456789abcdef".

Definition hex_digit (x : Z) : ascii := nth (Z.to_nat (Z.land x 0xf)) hex_digits "0"%char.

Definition hex32 (x : Z) : list ascii :=
  (fun i => hex_digit (Z.shiftr x (4 * Z.of_nat i))) <$> reverse (seq 0 8).

Definition hex_of_state (s : state) : list ascii :=
  hex32 (ha s) ++ hex32 (hb s) ++ hex32 (hc s) ++ hex32 (hd s) ++
  hex32 (he s) ++ hex32 (hf s) ++ hex32 (hg s) ++ hex32 (hh s).

(** [str.encode()]: strings are kept as their UTF-8 bytes. *)
Definition encode (s : string) : list Z :=
  (fun c => Z.of_N (N_of_ascii c)) <$> String.list_ascii_of_string s.

(** [hashlib.sha256(s.encode()).hexdigest()]. *)
Definition sha256_hexdigest (s : string) : string :=
  String.string_of_list_ascii (hex_of_state (digest (encode s))).

End Sha256.

(** ** kiro/utils.py *)

Module Utils.

(** What a call can observe of the process it runs in:
    [socket.gethostname()] and [getpass.getuser()], each of which returns a
    string or raises, and the time of the call, which stands for all that
    changes from one call to the next. *)
Record environment := Environment {
  gethostname : result string;
  getuser : result string;
  clock : Z
}.

(** Lines 46-57.  The [except Exception] clause catches whatever the [try]
    block raises; the warning it logs is not part of the returned value.  A
    name that [encode()] cannot encode (one with a lone surrogate) is not a
    string of bytes: it ends in the same clause, and stands here as a lookup
    that raised. *)
Definition get_machine_fingerprint (env : environment) : string :=
  let attempt :=
    hostname ← gethostname env;
    username ← getuser env;
    let unique_string := hostname +:+ "-" +:+ username +:+ "-kiro-gateway" in
    Ok (Sha256.sha256_hexdigest unique_string) in
  match attempt with
  | Ok fingerprint => fingerprint
  | Raise _ => Sha256.sha256_hexdigest "default-kiro-gateway"
  end.

(** [kiro.auth.KiroAuthManager] is outside these sources; the header builder
    reads its [fingerprint] attribute only. *)
Record KiroAuthManager := { fingerprint : string }.

Abbreviation headers := (gmap string string).

(** Lines 72-88.  [uuid4] is the text of the fresh [uuid.uuid4()] of this
    call; [target] is [None] when the argument is left out. *)
Definition get_kiro_headers (auth_manager : KiroAuthManager) (token : string)
    (target : option string) (uuid4 : string) : headers :=
  let fingerprint := fingerprint auth_manager in
  let headers : headers :=
    {[ "Authorization" := "Bearer " +:+ token;
       "Content-Type" := "application/x-amz-json-1.0";
       "User-Agent" := "AmazonQ-For-CLI/1.23.1";
       "x-amz-user-agent" :=
         "aws-sdk-rust/1.0.0 kiro-gateway-" +:+ str_prefix 8 fingerprint;
       "x-amzn-codewhisperer-optout" := "false";
       "amz-sdk-invocation-id" := uuid4;
       "amz-sdk-request" := "attempt=1; max=3" ]} in
  match target with
  | Some target =>
      if truthy (JStr target) then <["x-amz-target" := target]> headers else headers
  | None => headers
  end.

(** Lines 102-109. *)
Definition get_q_api_headers (token target : string) (uuid4 : string) : headers :=
  {[ "Authorization" := "Bearer " +:+ token;
     "Content-Type" := "application/x-amz-json-1.0";
     "x-amz-target" := target;
     "User-Agent" := "aws-sdk-rust/1.0.0 os/linux lang/rust md/kiro-cli";
     "amz-sdk-invocation-id" := uuid4;
     "amz-sdk-request" := "attempt=1; max=3" ]}.

(** [uuid.UUID]: a fresh [uuid.uuid4()] is given by its 128-bit integer.
    [uuid_hex] is its [hex] attribute (['%032x' % int]) and [uuid_str] its
    [str()], the same digits in groups of 8, 4, 4, 4 and 12. *)
Definition uuid_hex (int : Z) : string :=
  String.string_of_list_ascii
    ((fun i => Sha256.hex_digit (Z.shiftr int (4 * Z.of_nat i))) <$> reverse (seq 0 32)).

Definition uuid_str (int : Z) : string :=
  let hex := uuid_hex int in
  String.substring 0 8 hex +:+ "-" +:+ String.substring 8 4 hex +:+ "-" +:+
  String.substring 12 4 hex +:+ "-" +:+ String.substring 16 4 hex +:+ "-" +:+
  String.substring 20 12 hex.

(** Line 119. *)
Definition generate_completion_id (uuid4 : Z) : string :=
  "chatcmpl-" +:+ uuid_hex uuid4.

(** Line 129. *)
Definition generate_conversation_id (uuid4 : Z) : string := uuid_str uuid4.

(** Line 139. *)
Definition generate_tool_call_id (uuid4 : Z) : string :=
  "call_" +:+ String.substring 0 8 (uuid_hex uuid4).

End Utils.

(** ** Vocabulary of the properties *)

Module Props.
Import QApi.

(** The turns of a built conversation state: the list under ["history"],
    empty when the key is not there. *)
Definition history_of (conversation_state : dict) : list json :=
  match conversation_state !! "history" with
  | Some (JList turns) => turns
  | _ => []
  end.

(** Whether the messages read so far leave a user-role message that no
    assistant-role message has answered. *)
Definition unpaired_user (messages : list dict) : bool :=
  foldl (fun pending msg =>
           if py_eq (role_of msg) (JStr "system") then pending
           else if py_eq (role_of msg) (JStr "user") then true
           else if py_eq (role_of msg) (JStr "assistant") then false
           else pending)
        false messages.

(** The message list [u1, a1, u2, a2, ...] of a list of pairs. *)
Definition interleave (pairs : list (dict * dict)) : list dict :=
  flat_map (fun p => [p.1; p.2]) pairs.

(** The message lists of the form user, assistant, user, assistant, ...;
    each is [interleave pairs], followed or not by one more user message. *)
Inductive alternating : list dict -> Prop :=
  | alternating_nil : alternating []
  | alternating_user (u : dict) :
      role_of u = JStr "user" -> alternating [u]
  | alternating_pair (u a : dict) (rest : list dict) :
      role_of u = JStr "user" -> role_of a = JStr "assistant" ->
      alternating rest -> alternating (u :: a :: rest).

(** The turn that a user message and the assistant message after it make. *)
Definition turn_of (p : dict * dict) : result json :=
  user_content ← flatten_content (content_of p.1);
  assistant_content ← flatten_content (content_of p.2);
  Ok (turn (user_input_message user_content) assistant_content).

(** The marker keys of a raw stream event and the kinds of a parsed one. *)
Definition marker_keys : list string :=
  [ "assistantResponseMessage"; "toolUseEvent"; "metadataEvent"; "meteringEvent";
    "codeEvent"; "followupPromptEvent"; "intentsEvent"; "invalidStateEvent";
    "supplementaryWebLinksEvent" ].

Definition canonical_kinds : list string :=
  [ "message"; "tool_use"; "metadata"; "code"; "followup"; "intents"; "error";
    "web_links"; "unknown" ].

(** The metadata event whose fields are copied from the object [meta]. *)
Definition metadata_event (meta : dict) : dict :=
  {[ "type" := JStr "metadata";
     "conversation_id" := get meta "conversationId" JNull;
     "utterance_id" := get meta "utteranceId" JNull;
     "total_tokens" := get meta "totalTokens" JNull;
     "input_tokens" := get meta "uncachedInputTokens" JNull;
     "output_tokens" := get meta "outputTokens" JNull;
     "cache_read_tokens" := get meta "cacheReadInputTokens" JNull;
     "cache_write_tokens" := get meta "cacheWriteInputTokens" JNull ]}.

(** Whether a parsed model is flagged as the default one, and how many of a
    parsed list are. *)
Definition flagged (entry : json) : bool :=
  match entry with
  | JObj o => bool_decide (o !! "is_default" = Some (JBool true))
  | _ => false
  end.

Definition default_count (entries : list json) : nat :=
  length (filter (fun e => flagged e = true) entries).

(** Whether a model of the response carries the declared default's name. *)
Definition names_default (response_data : dict) (model : dict) : bool :=
  py_eq (get model "modelName" JNull) (get response_data "defaultModel" JNull).

(** The entry that lines 447-457 build for a model that is an object. *)
Definition model_entry (default_model : json) (model : dict) : json :=
  match parse_model default_model (JObj model) with
  | Ok entry => entry
  | Raise _ => JNull
  end.

(** The headers that [get_kiro_headers] sets whatever the target. *)
Definition template_headers : list string :=
  [ "Authorization"; "Content-Type"; "User-Agent"; "x-amz-user-agent";
    "x-amzn-codewhisperer-optout"; "amz-sdk-invocation-id"; "amz-sdk-request" ].

(** A lowercase hexadecimal digest of [n] characters. *)
Definition hex_string (n : nat) (s : string) : Prop :=
  String.length s = n
  /\ Forall (fun c => In c Sha256.hex_digits) (String.list_ascii_of_string s).

(** Whether the content of a message can be flattened. *)
Definition flattens (msg : dict) : bool :=
  match flatten_content (content_of msg) with Ok _ => true | Raise _ => false end.

(** The conversation state before the history and the current message are
    put in: the trigger type, and the conversation id when one is given. *)
Definition conversation_base (chat_trigger_type : string)
    (conversation_id : option string) : dict :=
  set_if_truthy "conversationId" (JStr <$> conversation_id)
    {[ "chatTriggerType" := JStr chat_trigger_type ]}.

(** A turn, and a user-input message, as the builder makes them. *)
Definition is_turn (t : json) : Prop :=
  exists user_content assistant_content,
    t = turn (user_input_message user_content) assistant_content.

Definition is_user_input_message (m : json) : Prop :=
  exists content, m = user_input_message content.

(** The user-input message with the tool specs in its context. *)
Definition user_input_message_with_tools (content : json) (specs : list json) : json :=
  JObj {[ "content" := content;
          "userInputMessageContext" :=
            JObj (<["tools" := JList specs]>
                    {[ "userSettings" :=
                         JObj {[ "hasConsentedToCrossRegionCalls" := JBool true ]} ]}) ]}.

(** The request around a conversation state, before any tools. *)
Definition request_of (conversation_state : dict) (agent_mode : bool) : dict :=
  if agent_mode
  then <["agentMode" := JBool true]> {[ "conversationState" := JObj conversation_state ]}
  else {[ "conversationState" := JObj conversation_state ]}.

(** Whether a tool is a function tool, and whether its ["function"] can be
    read: it is left out or an object. *)
Definition is_function_tool (tool : dict) : bool :=
  py_eq (get tool "type" JNull) (JStr "function").

Definition function_readable (tool : dict) : bool :=
  match tool !! "function" with
  | None | Some (JObj _) => true
  | _ => false
  end.

(** The fields a parsed event of each kind carries beside ["type"]. *)
Definition event_fields (kind : string) : list string :=
  if bool_decide (kind = "message") then
    [ "message_id"; "content"; "tool_uses"; "references"; "followup_prompt";
      "cache_point"; "reasoning_content" ]
  else if bool_decide (kind = "tool_use") then [ "tool_use_id"; "name"; "input" ]
  else if bool_decide (kind = "metadata") then
    [ "conversation_id"; "utterance_id"; "total_tokens"; "input_tokens";
      "output_tokens"; "cache_read_tokens"; "cache_write_tokens" ]
  else if bool_decide (kind = "code") then [ "content" ]
  else if bool_decide (kind = "followup") then [ "content" ]
  else if bool_decide (kind = "intents") then [ "intents" ]
  else if bool_decide (kind = "error") then [ "reason" ]
  else if bool_decide (kind = "web_links") then [ "links" ]
  else [ "data" ].

(** An optional argument that is left out or empty. *)
Definition empty_or_none {A} (empty : A) (none : bool) : option A :=
  if none then None else Some empty.

(** [s] without its dashes. *)
Definition without_dashes (s : string) : string :=
  String.string_of_list_ascii
    (filter (fun c => c <> "-"%char) (String.list_ascii_of_string s)).

(** What [if value: d[key] = value] stores: the value when it is truthy. *)
Definition truthy_value (value : option json) : option json :=
  match value with
  | Some v => if truthy v then Some v else None
  | None => None
  end.

Definition is_object (v : json) : bool :=
  match v with JObj _ => true | _ => false end.

(** A computation that raises nothing but the [AttributeError] of [.get]. *)
Definition raises_attribute_error_only {A} (m : result A) : Prop :=
  forall e, m = Raise e -> e = AttributeError "get".

(** Flattening, as the message format describes it: the text parts of a list
    content are the objects whose [type] is ["text"]; their texts, the empty
    text for a part that has none, are joined with a newline and the other
    parts are left out.  A content that is no list is kept. *)
Definition is_text_part (part : json) : bool :=
  match part with
  | JObj p => bool_decide (p !! "type" = Some (JStr "text"))
  | _ => false
  end.

Definition text_of (part : json) : string :=
  match part with
  | JObj p => match p !! "text" with Some (JStr s) => s | _ => EmptyString end
  | _ => EmptyString
  end.

Definition flattened (content : json) : json :=
  match content with
  | JList parts =>
      JStr (String.concat nl (text_of <$> filter (fun p => is_text_part p = true) parts))
  | _ => content
  end.

(** A content can be flattened when it is no list, or when each of its text
    parts carries a string or no text at all. *)
Definition carries_text (part : json) : bool :=
  match part with
  | JObj p => match p !! "text" with None | Some (JStr _) => true | _ => false end
  | _ => true
  end.

Definition flattenable (content : json) : bool :=
  match content with
  | JList parts => forallb (fun p => implb (is_text_part p) (carries_text p)) parts
  | _ => true
  end.

(** The user-input message and the history turn of the vendor's request,
    written out key by key. *)
Definition user_message_json (content : json) : json :=
  JObj {[ "content" := content;
          "userInputMessageContext" :=
            JObj {[ "userSettings" :=
                      JObj {[ "hasConsentedToCrossRegionCalls" := JBool true ]} ]} ]}.

Definition turn_json (user_content assistant_content : json) : json :=
  JObj {[ "userInputMessage" :=
            JObj {[ "content" := user_content;
                    "userInputMessageContext" :=
                      JObj {[ "userSettings" :=
                                JObj {[ "hasConsentedToCrossRegionCalls" := JBool true ]} ]} ]};
          "assistantResponseMessage" := JObj {[ "content" := assistant_content ]} ]}.

End Props.

(** ** Sample inputs *)

Module Samples.

Definition text (s : string) : json :=
  JObj {[ "type" := JStr "text"; "text" := JStr s ]}.
Definition image : json :=
  JObj {[ "type" := JStr "image_url" ]}.
Definition user (content : json) : dict :=
  {[ "role" := JStr "user"; "content" := content ]}.
Definition assistant (content : json) : dict :=
  {[ "role" := JStr "assistant"; "content" := content ]}.

Definition two_pairs : list (dict * dict) :=
  [ (user (JStr "hi"), assistant (JStr "hello"));
    (user (JList [text "how"; image; text "so"]), assistant (JStr "thus")) ].

Definition tool_use_event : dict :=
  {[ "toolUseEvent" := JObj {[ "toolUseId" := JStr "t1"; "name" := JStr "ls" ]} ]}.

Definition both_markers : dict :=
  {[ "metadataEvent" := JObj {[ "totalTokens" := JNum 42 ]};
     "meteringEvent" := JObj {[ "totalTokens" := JNum 5 ]} ]}.

Definition two_models : list dict :=
  [ {[ "modelName" := JStr "claude-sonnet-4" ]};
    {[ "modelName" := JStr "claude-haiku-4" ]} ].

Definition models_response : dict :=
  {[ "models" := JList (JObj <$> two_models);
     "defaultModel" := JStr "claude-haiku-4" ]}.

Definition laptop (clock : Z) : Utils.environment :=
  Utils.Environment (Ok "laptop") (Ok "ada") clock.

Definition auth : Utils.KiroAuthManager :=
  {| Utils.fingerprint := Utils.get_machine_fingerprint (laptop 0) |}.

Definition weather_tool : dict :=
  {[ "type" := JStr "function";
     "function" := JObj {[ "name" := JStr "get_weather";
                           "parameters" := JObj ∅ ]} ]}.

Definition retrieval_tool : dict := {[ "type" := JStr "retrieval" ]}.

Definition system_message : dict :=
  {[ "role" := JStr "system"; "content" := JStr "Be brief." ]}.

Definition weather_spec : json :=
  JObj {[ "name" := JStr "get_weather";
          "description" := JStr EmptyString;
          "inputSchema" := JObj ∅ ]}.

End Samples.

(** ** Proof steps *)

(** A marker key that holds an object: the branch of the parser for it
    returns an event of the given kind. *)
Ltac marker_case Hwf E kind :=
  match type of E with
  | ?ev !! ?k = Some ?v =>
      let o := fresh "o" in
      destruct (Hwf k v) as [o ->]; [simpl; tauto | exact E |];
      cbn [py_get mbind result_bind];
      eexists _, kind; split; [reflexivity|];
      split; [apply lookup_insert_eq | simpl; tauto]
  end.

(** * Properties *)

Import QApi Props.

(** ** Python's equality on strings *)

Lemma numeric_JStr_inv (v : json) (s : string) : numeric v = JStr s -> v = JStr s.
Proof. destruct v; simpl; congruence. Qed.

Lemma py_eq_JStr (v : json) (s : string) : py_eq v (JStr s) = true <-> v = JStr s.
Proof.
  unfold py_eq. rewrite bool_decide_eq_true. simpl. split.
  - apply numeric_JStr_inv.
  - intros ->. reflexivity.
Qed.

Lemma py_eq_str (s t : string) : py_eq (JStr s) (JStr t) = bool_decide (s = t).
Proof.
  unfold py_eq. simpl. apply bool_decide_ext. split; congruence.
Qed.

(** ** Flattening of content *)

Lemma join_strings (sep : string) (texts : list string) :
  join sep (JStr <$> texts) = Ok (String.concat sep texts).
Proof.
  induction texts as [|s [|t texts] IH]; [reflexivity..|].
  change (join sep (JStr <$> s :: t :: texts))
    with (r ← join sep (JStr <$> t :: texts); Ok (s +:+ sep +:+ r)).
  rewrite IH. reflexivity.
Qed.

(** A list content whose text parts carry strings flattens to those strings
    joined with a newline; the parts that are not text parts do not count. *)
Lemma flatten_text_parts (parts : list json) (texts : list string) :
  omap text_part parts = JStr <$> texts ->
  flatten_content (JList parts) = Ok (JStr (String.concat nl texts)).
Proof. intros H. unfold flatten_content. rewrite H, join_strings. reflexivity. Qed.

Lemma join_is_ok (sep : string) (parts : list json) :
  is_ok (join sep parts) <-> Forall (fun t => exists s, t = JStr s) parts.
Proof.
  split.
  - induction parts as [|t [|t' parts] IH]; intros [r Hr]; [constructor|..].
    + destruct t; try discriminate. repeat constructor. eauto.
    + destruct t; try discriminate.
      change (join sep (JStr s :: t' :: parts))
        with (r ← join sep (t' :: parts); Ok (s +:+ sep +:+ r)) in Hr.
      destruct (join sep (t' :: parts)) as [r'|] eqn:E; [|discriminate].
      constructor; [eauto | apply IH; eexists; reflexivity].
  - intros H. assert (exists texts, parts = JStr <$> texts) as [texts ->].
    { induction H as [|t parts [s ->] _ [texts ->]]; [exists []; reflexivity|].
      exists (s :: texts). reflexivity. }
    rewrite join_strings. eexists; reflexivity.
Qed.

(** Flattening raises exactly when the content is a list with a text part
    whose text is not a string. *)
Lemma flatten_content_is_ok (content : json) :
  is_ok (flatten_content content)
  <-> forall parts, content = JList parts ->
        Forall (fun t => exists s, t = JStr s) (omap text_part parts).
Proof.
  destruct content; simpl;
    try (split; [intros _ parts [=] | intros _; eexists; reflexivity]).
  split.
  - intros [c Hc] parts [= <-]. apply (join_is_ok nl).
    destruct (join nl (omap text_part l)); [eexists; reflexivity | discriminate].
  - intros H. destruct (proj2 (join_is_ok nl _) (H l eq_refl)) as [r ->].
    eexists; reflexivity.
Qed.

Lemma flatten_not_list (content : json) :
  (forall parts, content <> JList parts) -> flatten_content content = Ok content.
Proof. destruct content; try reflexivity. intros H. destruct (H l eq_refl). Qed.

Lemma text_part_text (part : json) :
  text_part part
  = if is_text_part part
    then Some (match part with
               | JObj p => get p "text" (JStr EmptyString)
               | _ => JNull
               end)
    else None.
Proof.
  destruct part; try reflexivity. cbn [text_part is_text_part].
  destruct (py_eq (get o "type" JNull) (JStr "text")) eqn:E.
  - apply py_eq_JStr in E. unfold get in E.
    destruct (o !! "type") as [v|]; [|discriminate]. subst v.
    rewrite bool_decide_eq_true_2 by reflexivity. reflexivity.
  - rewrite bool_decide_eq_false_2; [reflexivity|].
    intros H. unfold get in E. rewrite H in E. discriminate E.
Qed.

Lemma text_parts_flattenable (parts : list json) :
  forallb (fun p => implb (is_text_part p) (carries_text p)) parts = true ->
  omap text_part parts
  = JStr <$> (text_of <$> filter (fun p => is_text_part p = true) parts).
Proof.
  induction parts as [|part parts IH]; [reflexivity|].
  cbn [forallb]. intros [Hp Hl]%andb_prop.
  change (omap text_part (part :: parts))
    with (match text_part part with
          | Some y => y :: omap text_part parts
          | None => omap text_part parts
          end).
  rewrite filter_cons, text_part_text.
  destruct (is_text_part part) eqn:E.
  - rewrite decide_True by reflexivity. rewrite fmap_cons, fmap_cons, (IH Hl).
    f_equal. cbn [implb] in Hp. destruct part; try discriminate E.
    unfold get, text_of. cbn [carries_text] in Hp.
    destruct (o !! "text") as [[]|]; try discriminate Hp; reflexivity.
  - rewrite decide_False by discriminate. apply IH, Hl.
Qed.

(** What the code's flattening returns is the flattened content. *)
Lemma flatten_content_flattened (content : json) :
  flattenable content = true -> flatten_content content = Ok (flattened content).
Proof.
  destruct content; try reflexivity. cbn [flattenable flatten_content flattened].
  intros H. rewrite (text_parts_flattenable l H), join_strings. reflexivity.
Qed.

Lemma user_input_message_json (content : json) :
  user_input_message content = user_message_json content.
Proof. reflexivity. Qed.

Lemma turn_of_contents (user_content assistant_content : json) :
  turn (user_input_message user_content) assistant_content
  = turn_json user_content assistant_content.
Proof. reflexivity. Qed.

(** What a turn holds: the content of the user message and the content of the
    answer, each under its own key. *)
Lemma turn_json_fields (user_content assistant_content : json) :
  (u ← getitem (turn_json user_content assistant_content) "userInputMessage";
   getitem u "content") = Ok user_content
  /\ (a ← getitem (turn_json user_content assistant_content)
             "assistantResponseMessage";
      getitem a "content") = Ok assistant_content.
Proof. split; reflexivity. Qed.

(** ** The pairing loop *)

Lemma pair_messages_app (st : pairing) (l1 l2 : list dict) :
  pair_messages st (l1 ++ l2) = (st' ← pair_messages st l1; pair_messages st' l2).
Proof.
  revert st. induction l1 as [|m l1 IH]; intros st; [reflexivity|].
  simpl. destruct (pair_step st m) as [st'|e]; simpl; [apply IH | reflexivity].
Qed.

Lemma pair_step_user (st : pairing) (msg : dict) (c : json) :
  role_of msg = JStr "user" ->
  flatten_content (content_of msg) = Ok c ->
  pair_step st msg = Ok (Pairing (history st) (Some (user_input_message c))).
Proof. intros Hr Hc. unfold pair_step. rewrite Hc, Hr. reflexivity. Qed.

Lemma pair_step_assistant_paired (hist : list json) (cm : json) (msg : dict) (c : json) :
  role_of msg = JStr "assistant" ->
  flatten_content (content_of msg) = Ok c ->
  pair_step (Pairing hist (Some cm)) msg = Ok (Pairing (hist ++ [turn cm c]) None).
Proof. intros Hr Hc. unfold pair_step. rewrite Hc, Hr. reflexivity. Qed.

Lemma pair_step_assistant_orphan (st : pairing) (msg : dict) :
  role_of msg = JStr "assistant" ->
  is_ok (flatten_content (content_of msg)) ->
  current_message st = None ->
  pair_step st msg = Ok st.
Proof.
  intros Hr [c Hc] Hn. unfold pair_step. rewrite Hc, Hr. simpl.
  rewrite Hn. reflexivity.
Qed.

(** ** The built conversation state *)

Lemma last_user_message_other (rev_messages : list dict) (cs : dict) (k : string) :
  k <> "currentMessage" ->
  forall cs', last_user_message rev_messages cs = Ok cs' -> cs' !! k = cs !! k.
Proof.
  intros Hk. induction rev_messages as [|m l IH]; simpl; intros cs' H.
  - congruence.
  - destruct (py_eq (get m "role" JNull) (JStr "user")); [|auto].
    destruct (flatten_content (content_of m)); simpl in H; [|discriminate].
    injection H as <-. rewrite lookup_insert_ne; auto.
Qed.

Lemma last_user_message_is_ok (rev_messages : list dict) (cs : dict) :
  Forall (fun m => is_ok (flatten_content (content_of m))) rev_messages ->
  is_ok (last_user_message rev_messages cs).
Proof.
  induction 1 as [|m l [c Hc] _ IH]; simpl.
  - eexists; reflexivity.
  - destruct (py_eq (get m "role" JNull) (JStr "user")); [|exact IH].
    rewrite Hc. eexists; reflexivity.
Qed.

(** What the statements after the first loop make of its two locals, while
    [current_message] is set. *)
Lemma build_conversation_state_current (messages : list dict) (model_id : string)
    (conversation_id profile_arn : option string) (chat_trigger_type : string)
    (hist : list json) (cm : json) :
  pair_messages (Pairing [] None) messages = Ok (Pairing hist (Some cm)) ->
  exists cs,
    build_conversation_state messages model_id conversation_id profile_arn
      chat_trigger_type = Ok cs
    /\ cs !! "currentMessage" = Some cm
    /\ cs !! "history" = (if bool_decide (hist = []) then None else Some (JList hist))
    /\ cs !! "chatTriggerType" = Some (JStr chat_trigger_type).
Proof.
  intros H. unfold build_conversation_state. rewrite H. simpl.
  eexists. split; [reflexivity|].
  split; [apply lookup_insert_eq|].
  rewrite !lookup_insert_ne by done.
  destruct conversation_id as [cid|]; [destruct (bool_decide (cid = EmptyString))|];
    simpl; destruct (bool_decide (hist = [])); simpl;
    rewrite ?lookup_insert_eq, ?lookup_insert_ne by done; split; reflexivity.
Qed.

(** The same while [current_message] is [None]: the second loop decides
    [currentMessage] and leaves the other keys alone. *)
Lemma build_conversation_state_no_current (messages : list dict) (model_id : string)
    (conversation_id profile_arn : option string) (chat_trigger_type : string)
    (hist : list json) :
  pair_messages (Pairing [] None) messages = Ok (Pairing hist None) ->
  Forall (fun m => is_ok (flatten_content (content_of m))) messages ->
  exists cs,
    build_conversation_state messages model_id conversation_id profile_arn
      chat_trigger_type = Ok cs
    /\ cs !! "history" = (if bool_decide (hist = []) then None else Some (JList hist)).
Proof.
  intros H Hall. unfold build_conversation_state. rewrite H. simpl.
  match goal with
  | |- context [last_user_message ?l ?c] =>
      destruct (last_user_message_is_ok l c) as [cs' Hcs'];
        [apply Forall_reverse; exact Hall|];
      pose proof (last_user_message_other l c "history" ltac:(done) cs' Hcs') as Hh
  end.
  destruct (bool_decide (JObj <$> messages = [])) eqn:E; simpl.
  - eexists. split; [reflexivity|].
    destruct conversation_id as [cid|]; [destruct (bool_decide (cid = EmptyString))|];
      simpl; destruct (bool_decide (hist = [])); simpl;
      rewrite ?lookup_insert_eq, ?lookup_insert_ne by done; reflexivity.
  - exists cs'. split; [exact Hcs'|]. rewrite Hh.
    destruct conversation_id as [cid|]; [destruct (bool_decide (cid = EmptyString))|];
      simpl; destruct (bool_decide (hist = [])); simpl;
      rewrite ?lookup_insert_eq, ?lookup_insert_ne by done; reflexivity.
Qed.

Lemma single_user_message_built (msg : dict) (c : json) (model_id : string)
    (conversation_id profile_arn : option string) (chat_trigger_type : string) :
  role_of msg = JStr "user" ->
  flatten_content (content_of msg) = Ok c ->
  build_conversation_state [msg] model_id conversation_id profile_arn
    chat_trigger_type
  = Ok (<["currentMessage" := user_input_message c]>
          (conversation_base chat_trigger_type conversation_id)).
Proof.
  intros Hr Hc. unfold build_conversation_state. cbn [pair_messages].
  rewrite (pair_step_user _ _ c Hr Hc). cbn [mbind result_bind history current_message].
  destruct conversation_id; reflexivity.
Qed.

Lemma conversation_base_other (chat_trigger_type : string)
    (conversation_id : option string) (k : string) :
  k <> "chatTriggerType" -> k <> "conversationId" ->
  conversation_base chat_trigger_type conversation_id !! k = None.
Proof.
  intros H1 H2. unfold conversation_base, set_if_truthy.
  destruct conversation_id as [cid|]; cbn [fmap option_fmap option_map];
    [destruct (truthy (JStr cid))|];
    rewrite ?lookup_insert_ne by congruence; apply lookup_singleton_ne; congruence.
Qed.

(** C6, as the code has it.  A message list that holds one user-role message
    whose content can be flattened (it is no list, or each text part of the
    list carries a string or no text) gives the conversation state that has,
    beside the trigger type and the conversation id, no history and the
    current message with the flattened content: the texts of the text parts
    joined with a newline, the other parts left out. *)
Theorem single_user_message (msg : dict) (model_id : string)
    (conversation_id profile_arn : option string) (chat_trigger_type : string) :
  role_of msg = JStr "user" ->
  flattenable (content_of msg) = true ->
  exists cs,
    build_conversation_state [msg] model_id conversation_id profile_arn
      chat_trigger_type = Ok cs
    /\ cs !! "history" = None
    /\ history_of cs = []
    /\ cs !! "currentMessage" = Some (user_message_json (flattened (content_of msg)))
    /\ (cm ← getitem (JObj cs) "currentMessage"; getitem cm "content")
       = Ok (flattened (content_of msg))
    /\ cs = <["currentMessage" := user_message_json (flattened (content_of msg))]>
              (conversation_base chat_trigger_type conversation_id).
Proof.
  intros Hr Hf. eexists. split.
  { apply single_user_message_built;
      [exact Hr | apply flatten_content_flattened, Hf]. }
  rewrite user_input_message_json.
  assert ((<["currentMessage" := user_message_json (flattened (content_of msg))]>
             (conversation_base chat_trigger_type conversation_id)) !! "history" = None)
    as Hh by (rewrite lookup_insert_ne by done; apply conversation_base_other; done).
  split; [exact Hh|]. split; [unfold history_of; rewrite Hh; reflexivity|].
  split; [apply lookup_insert_eq|]. split; [|reflexivity].
  cbn [getitem]. rewrite lookup_insert_eq. reflexivity.
Qed.

(** C6, as stated, fails: a text part that carries no string makes the join
    of line 94 raise, for a single user message too. *)
Lemma single_user_message_may_raise :
  let msg : dict :=
    {[ "role" := JStr "user";
       "content" := JList [ JObj {[ "type" := JStr "text"; "text" := JNull ]} ] ]} in
  role_of msg = JStr "user"
  /\ build_conversation_state [msg] "claude-sonnet-4-5" None None "MANUAL"
     = Raise TypeError.
Proof. cbv zeta. split; vm_compute; reflexivity. Qed.

(** ** Alternating message lists *)

Lemma mapR_Ok_cons {A B} (f : A -> result B) (x : A) (l : list A) (ys : list B) :
  mapR f (x :: l) = Ok ys ->
  exists y ys', f x = Ok y /\ mapR f l = Ok ys' /\ ys = y :: ys'.
Proof.
  simpl. destruct (f x) as [y|]; simpl; [|discriminate].
  destruct (mapR f l) as [ys'|]; simpl; [|discriminate].
  intros [= <-]. eauto.
Qed.

Lemma mapR_length {A B} (f : A -> result B) (l : list A) (ys : list B) :
  mapR f l = Ok ys -> length ys = length l.
Proof.
  revert ys. induction l as [|x l IH]; intros ys H.
  - injection H as <-. reflexivity.
  - apply mapR_Ok_cons in H as (y & ys' & _ & H & ->). simpl. f_equal. auto.
Qed.

Lemma turn_of_Ok (p : dict * dict) (t : json) :
  turn_of p = Ok t ->
  exists cu ca,
    flatten_content (content_of p.1) = Ok cu
    /\ flatten_content (content_of p.2) = Ok ca
    /\ t = turn (user_input_message cu) ca.
Proof.
  unfold turn_of. destruct (flatten_content (content_of p.1)) as [cu|]; [|discriminate].
  destruct (flatten_content (content_of p.2)) as [ca|]; [|discriminate].
  simpl. intros [= <-]. eauto.
Qed.

Lemma pair_messages_interleave (pairs : list (dict * dict)) :
  Forall (fun p => role_of p.1 = JStr "user" /\ role_of p.2 = JStr "assistant") pairs ->
  forall (turns hist : list json) (rest : list dict),
    mapR turn_of pairs = Ok turns ->
    pair_messages (Pairing hist None) (interleave pairs ++ rest)
    = pair_messages (Pairing (hist ++ turns) None) rest.
Proof.
  induction 1 as [|p ps [Hu Ha] _ IH]; intros turns hist rest Hturns.
  - injection Hturns as <-. rewrite app_nil_r. reflexivity.
  - apply mapR_Ok_cons in Hturns as (t & ts & Ht & Hts & ->).
    apply turn_of_Ok in Ht as (cu & ca & Hcu & Hca & ->).
    change (interleave (p :: ps) ++ rest)
      with (p.1 :: p.2 :: (interleave ps ++ rest)).
    cbn [pair_messages].
    rewrite (pair_step_user _ _ cu Hu Hcu). cbn [mbind result_bind history].
    rewrite (pair_step_assistant_paired _ _ _ ca Ha Hca). cbn [mbind result_bind].
    rewrite (IH ts _ rest Hts), <- app_assoc. reflexivity.
Qed.

Lemma interleave_flatten_ok (pairs : list (dict * dict)) (turns : list json) :
  mapR turn_of pairs = Ok turns ->
  Forall (fun m => is_ok (flatten_content (content_of m))) (interleave pairs).
Proof.
  revert turns. induction pairs as [|p ps IH]; intros turns H; [constructor|].
  apply mapR_Ok_cons in H as (t & ts & Ht & Hts & ->).
  apply turn_of_Ok in Ht as (cu & ca & Hcu & Hca & _).
  change (interleave (p :: ps)) with (p.1 :: p.2 :: interleave ps).
  repeat constructor; [exists cu | exists ca | eapply IH]; eassumption.
Qed.

Lemma alternating_interleave (messages : list dict) :
  alternating messages ->
  exists pairs final,
    messages = interleave pairs ++ option_list final
    /\ Forall (fun p => role_of p.1 = JStr "user" /\ role_of p.2 = JStr "assistant") pairs
    /\ (forall u, final = Some u -> role_of u = JStr "user").
Proof.
  induction 1 as [|u Hu|u a rest Hu Ha _ (pairs & final & -> & Hp & Hf)].
  - exists [], None. repeat split; [constructor | intros u [=]].
  - exists [], (Some u). repeat split; [constructor | intros u' [= <-]; exact Hu].
  - exists ((u, a) :: pairs), final. repeat split; [|exact Hf].
    constructor; [split; assumption | exact Hp].
Qed.

Lemma history_of_lookup (cs : dict) (hist : list json) :
  cs !! "history" = (if bool_decide (hist = []) then None else Some (JList hist)) ->
  history_of cs = hist.
Proof.
  intros H. unfold history_of. rewrite H.
  case_bool_decide; [subst|]; reflexivity.
Qed.

Lemma alternating_pairs_built (pairs : list (dict * dict)) (final : option dict)
    (turns : list json) (model_id : string)
    (conversation_id profile_arn : option string) (chat_trigger_type : string) :
  Forall (fun p => role_of p.1 = JStr "user" /\ role_of p.2 = JStr "assistant") pairs ->
  mapR turn_of pairs = Ok turns ->
  (forall u, final = Some u ->
     role_of u = JStr "user" /\ is_ok (flatten_content (content_of u))) ->
  exists cs,
    build_conversation_state (interleave pairs ++ option_list final) model_id
      conversation_id profile_arn chat_trigger_type = Ok cs
    /\ history_of cs = turns
    /\ length (history_of cs) = length pairs
    /\ forall u, final = Some u ->
         exists c, flatten_content (content_of u) = Ok c
                   /\ cs !! "currentMessage" = Some (user_input_message c).
Proof.
  intros Hroles Hturns Hfinal.
  pose proof (pair_messages_interleave pairs Hroles turns [] (option_list final) Hturns)
    as Hpair.
  rewrite app_nil_l in Hpair.
  destruct final as [u|]; simpl in Hpair.
  - destruct (Hfinal u eq_refl) as [Hu [c Hc]].
    rewrite (pair_step_user _ _ c Hu Hc) in Hpair. simpl in Hpair.
    destruct (build_conversation_state_current _ model_id conversation_id
                profile_arn chat_trigger_type _ _ Hpair)
      as (cs & Hcs & Hcur & Hhist & _).
    exists cs. apply history_of_lookup in Hhist.
    split; [exact Hcs|]. split; [exact Hhist|].
    split; [rewrite Hhist; eapply mapR_length; eassumption|].
    intros u' [= <-]. eauto.
  - destruct (build_conversation_state_no_current _ model_id conversation_id
                profile_arn chat_trigger_type _ Hpair)
      as (cs & Hcs & Hhist).
    { simpl. rewrite app_nil_r. eapply interleave_flatten_ok; eassumption. }
    exists cs. apply history_of_lookup in Hhist.
    split; [exact Hcs|]. split; [exact Hhist|].
    split; [rewrite Hhist; eapply mapR_length; eassumption|].
    intros u' [=].
Qed.

Lemma turn_of_flattened (p : dict * dict) :
  flattenable (content_of p.1) = true ->
  flattenable (content_of p.2) = true ->
  turn_of p
  = Ok (turn_json (flattened (content_of p.1)) (flattened (content_of p.2))).
Proof.
  intros H1 H2. unfold turn_of.
  rewrite (flatten_content_flattened _ H1), (flatten_content_flattened _ H2).
  reflexivity.
Qed.

Lemma mapR_Forall_Ok {A B} (f : A -> result B) (h : A -> B) (l : list A) :
  Forall (fun x => f x = Ok (h x)) l -> mapR f l = Ok (h <$> l).
Proof.
  induction 1 as [|x l Hx _ IH]; [reflexivity|].
  cbn [mapR]. rewrite Hx. cbn [mbind result_bind]. rewrite IH. reflexivity.
Qed.

(** C2, as the code has it.  Take the messages [u1, a1, ..., un, an] of
    [pairs], each [ui] of the user role and each [ai] of the assistant role,
    followed or not by one more user-role message [final], where every
    content can be flattened.  The history of the built state is the list of
    the turns of the pairs, in their order, each with the flattened contents
    of its two messages; it has as many turns as there are pairs; and when
    [final] is there the current message is the user-input message with its
    flattened content. *)
Theorem alternating_messages (pairs : list (dict * dict)) (final : option dict)
    (model_id : string) (conversation_id profile_arn : option string)
    (chat_trigger_type : string) :
  Forall (fun p => role_of p.1 = JStr "user" /\ role_of p.2 = JStr "assistant") pairs ->
  Forall (fun p => flattenable (content_of p.1) = true
                   /\ flattenable (content_of p.2) = true) pairs ->
  (forall u, final = Some u ->
     role_of u = JStr "user" /\ flattenable (content_of u) = true) ->
  exists cs,
    build_conversation_state (interleave pairs ++ option_list final) model_id
      conversation_id profile_arn chat_trigger_type = Ok cs
    /\ history_of cs
       = (fun p => turn_json (flattened (content_of p.1)) (flattened (content_of p.2)))
           <$> pairs
    /\ length (history_of cs) = length pairs
    /\ forall u, final = Some u ->
         cs !! "currentMessage" = Some (user_message_json (flattened (content_of u)))
         /\ (cm ← getitem (JObj cs) "currentMessage"; getitem cm "content")
            = Ok (flattened (content_of u)).
Proof.
  intros Hroles Hflat Hfinal.
  destruct (alternating_pairs_built pairs final
              ((fun p => turn_json (flattened (content_of p.1))
                           (flattened (content_of p.2))) <$> pairs)
              model_id conversation_id profile_arn chat_trigger_type Hroles)
    as (cs & Hcs & Hhist & Hlen & Hcur).
  { apply mapR_Forall_Ok. eapply Forall_impl; [exact Hflat|].
    intros p [H1 H2]. apply turn_of_flattened; assumption. }
  { intros u Hu. destruct (Hfinal u Hu) as [Hr Hf]. split; [exact Hr|].
    exists (flattened (content_of u)). apply flatten_content_flattened, Hf. }
  exists cs. split; [exact Hcs|]. split; [exact Hhist|]. split; [exact Hlen|].
  intros u Hu. destruct (Hcur u Hu) as (c & Hc & Hcm).
  destruct (Hfinal u Hu) as [_ Hf].
  rewrite (flatten_content_flattened _ Hf) in Hc. injection Hc as <-.
  rewrite user_input_message_json in Hcm. split; [exact Hcm|].
  cbn [getitem]. rewrite Hcm. reflexivity.
Qed.

(** C2, as stated, fails: in the alternating list of a user message and an
    assistant message whose text part carries no string, the join of line 94
    raises. *)
Lemma alternating_messages_may_raise :
  let u : dict := {[ "role" := JStr "user"; "content" := JStr "hi" ]} in
  let a : dict :=
    {[ "role" := JStr "assistant";
       "content" := JList [ JObj {[ "type" := JStr "text"; "text" := JNull ]} ] ]} in
  alternating [u; a]
  /\ build_conversation_state [u; a] "claude-sonnet-4-5" None None "MANUAL"
     = Raise TypeError.
Proof.
  cbv zeta. split; [|vm_compute; reflexivity].
  apply alternating_pair; [vm_compute; reflexivity | vm_compute; reflexivity |].
  apply alternating_nil.
Qed.

(** ** Assistant messages that answer nothing *)

Lemma pair_messages_pending (l : list dict) :
  forall (st st' : pairing) (b : bool),
    pair_messages st l = Ok st' ->
    (current_message st = None <-> b = false) ->
    (current_message st' = None <->
     foldl (fun pending msg =>
              if py_eq (role_of msg) (JStr "system") then pending
              else if py_eq (role_of msg) (JStr "user") then true
              else if py_eq (role_of msg) (JStr "assistant") then false
              else pending) b l = false).
Proof.
  induction l as [|m l IH]; intros st st' b H Hb.
  - injection H as <-. exact Hb.
  - cbn [pair_messages] in H.
    destruct (pair_step st m) as [st1|] eqn:E; [|discriminate].
    cbn [mbind result_bind] in H. cbn [foldl].
    apply (IH st1 st' _ H). clear IH H.
    unfold pair_step in E.
    destruct (flatten_content (content_of m)); [|discriminate].
    cbn [mbind result_bind] in E.
    destruct (py_eq (role_of m) (JStr "system")); [injection E as <-; exact Hb|].
    destruct (py_eq (role_of m) (JStr "user")); [injection E as <-; done|].
    destruct (py_eq (role_of m) (JStr "assistant")); [|injection E as <-; exact Hb].
    destruct (current_message st) eqn:Ecm; injection E as <-; [done|].
    rewrite Ecm. done.
Qed.

Lemma unpaired_user_pending (pre : list dict) (st : pairing) :
  pair_messages (Pairing [] None) pre = Ok st ->
  unpaired_user pre = false ->
  current_message st = None.
Proof.
  intros H Hu. apply (pair_messages_pending pre _ _ false H); [done|exact Hu].
Qed.

Lemma last_user_message_skip (l1 l2 : list dict) (a : dict) (cs : dict) :
  py_eq (get a "role" JNull) (JStr "user") = false ->
  last_user_message (l1 ++ a :: l2) cs = last_user_message (l1 ++ l2) cs.
Proof.
  intros Ha. induction l1 as [|m l1 IH]; simpl.
  - rewrite Ha. reflexivity.
  - rewrite IH. reflexivity.
Qed.

Lemma last_user_message_nonempty (messages : list dict) (cs : dict) :
  (if truthy (JList (JObj <$> messages))
   then last_user_message (reverse messages) cs else Ok cs)
  = last_user_message (reverse messages) cs.
Proof. destruct messages; reflexivity. Qed.

Lemma role_of_assistant (a : dict) :
  role_of a = JStr "assistant" -> get a "role" JNull = JStr "assistant".
Proof.
  unfold role_of, get. destruct (a !! "role"); [auto | discriminate].
Qed.

(** C7, as the code has it.  An assistant-role message [a] whose content can
    be flattened, and that comes when no user-role message waits for an
    answer, changes nothing: the builder returns for [pre ++ a :: post] what
    it returns for [pre ++ post], so the history has the same length and [a]
    brings no exception. *)
Theorem orphan_assistant_dropped (pre post : list dict) (a : dict) (model_id : string)
    (conversation_id profile_arn : option string) (chat_trigger_type : string) :
  role_of a = JStr "assistant" ->
  is_ok (flatten_content (content_of a)) ->
  unpaired_user pre = false ->
  build_conversation_state (pre ++ a :: post) model_id conversation_id
    profile_arn chat_trigger_type
  = build_conversation_state (pre ++ post) model_id conversation_id
      profile_arn chat_trigger_type
  /\ forall cs,
       build_conversation_state (pre ++ post) model_id conversation_id
         profile_arn chat_trigger_type = Ok cs ->
       exists cs',
         build_conversation_state (pre ++ a :: post) model_id conversation_id
           profile_arn chat_trigger_type = Ok cs'
         /\ length (history_of cs') = length (history_of cs).
Proof.
  intros Hr Hc Hpre.
  assert (build_conversation_state (pre ++ a :: post) model_id conversation_id
            profile_arn chat_trigger_type
          = build_conversation_state (pre ++ post) model_id conversation_id
              profile_arn chat_trigger_type) as Heq.
  { unfold build_conversation_state.
    assert (pair_messages (Pairing [] None) (pre ++ a :: post)
            = pair_messages (Pairing [] None) (pre ++ post)) as ->.
    { rewrite !pair_messages_app.
      destruct (pair_messages (Pairing [] None) pre) as [st|] eqn:E; [|reflexivity].
      cbn [mbind result_bind pair_messages].
      rewrite (pair_step_assistant_orphan st a Hr Hc (unpaired_user_pending _ _ E Hpre)).
      reflexivity. }
    destruct (pair_messages (Pairing [] None) (pre ++ post)) as [st|]; [|reflexivity].
    cbn [mbind result_bind].
    destruct (current_message st); [reflexivity|].
    rewrite !last_user_message_nonempty, !reverse_app, reverse_cons, <- app_assoc.
    cbn [app]. apply last_user_message_skip.
    rewrite (role_of_assistant a Hr). reflexivity. }
  split; [exact Heq|].
  intros cs Hcs. exists cs. rewrite Heq. auto.
Qed.

(** C7, as stated, fails: the content of a message is flattened before its
    role is looked at, so an unanswering assistant message with a text part
    that carries no string raises [TypeError], while the list without it
    builds. *)
Lemma orphan_assistant_malformed_raises :
  let a : dict :=
    {[ "role" := JStr "assistant";
       "content" := JList [ JObj {[ "type" := JStr "text"; "text" := JNull ]} ] ]} in
  role_of a = JStr "assistant"
  /\ unpaired_user [] = false
  /\ build_conversation_state ([] ++ a :: []) "claude-sonnet-4-5" None None "MANUAL"
     = Raise TypeError
  /\ build_conversation_state ([] ++ []) "claude-sonnet-4-5" None None "MANUAL"
     = Ok {[ "chatTriggerType" := JStr "MANUAL" ]}.
Proof. cbv zeta. repeat split; vm_compute; reflexivity. Qed.

(** C10.  The model id and the profile ARN do not reach the result: the
    builder returns the same for any two choices of them. *)
Theorem model_and_profile_unused (messages : list dict)
    (model_id model_id' : string) (conversation_id : option string)
    (profile_arn profile_arn' : option string) (chat_trigger_type : string) :
  build_conversation_state messages model_id conversation_id profile_arn
    chat_trigger_type
  = build_conversation_state messages model_id' conversation_id profile_arn'
      chat_trigger_type.
Proof. reflexivity. Qed.

(** ** Tools and the current message *)

(** With no current message in the state, the assignment of line 210 fails
    at its second subscript as soon as one tool is a function tool; tools of
    other types alone leave the request without tools. *)
Lemma function_tools_need_current_message (messages : list dict) (model_id : string)
    (conversation_id profile_arn : option string) (agent_mode : bool)
    (tool : dict) (tools : list dict) (cs : dict) (specs : list json) :
  build_conversation_state messages model_id conversation_id profile_arn "MANUAL"
    = Ok cs ->
  cs !! "currentMessage" = None ->
  tool_specs_of (tool :: tools) = Ok specs ->
  build_generate_assistant_request messages model_id conversation_id profile_arn
    agent_mode (Some (tool :: tools))
  = if bool_decide (specs = [])
    then Ok (if agent_mode
             then <["agentMode" := JBool true]> {[ "conversationState" := JObj cs ]}
             else {[ "conversationState" := JObj cs ]})
    else Raise (KeyError "currentMessage").
Proof.
  intros Hcs Hcur Hspecs. unfold build_generate_assistant_request.
  rewrite Hcs. cbn [mbind result_bind]. rewrite Hspecs. cbn [mbind result_bind truthy].
  case_bool_decide; [reflexivity|]. cbn [negb].
  unfold attach_tools.
  destruct agent_mode; cbn [getitem];
    rewrite ?lookup_insert_ne by done; rewrite lookup_singleton_eq;
    cbn [mbind result_bind getitem]; rewrite Hcur; reflexivity.
Qed.

(** C1.  The messages [[{"role": "assistant", "content": "hello"}]] hold no
    user-role message, so the state has no current message; with one function
    tool the builder raises [KeyError: 'currentMessage'] where the tools were
    to be dropped. *)
Theorem tools_without_current_message_raise :
  build_generate_assistant_request
    [ {[ "role" := JStr "assistant"; "content" := JStr "hello" ]} ]
    "claude-sonnet-4-5" None None false
    (Some [ {[ "type" := JStr "function";
               "function" := JObj {[ "name" := JStr "get_weather";
                                     "description" := JStr "Weather of a city";
                                     "parameters" := JObj ∅ ]} ]} ])
  = Raise (KeyError "currentMessage").
Proof. vm_compute. reflexivity. Qed.

(** ** The event parser *)

Lemma meta_object (event_data : dict) :
  (forall k v, In k marker_keys -> event_data !! k = Some v -> exists o, v = JObj o) ->
  exists o, py_or (get event_data "metadataEvent" JNull)
                  (get event_data "meteringEvent" (JObj ∅)) = JObj o.
Proof.
  intros Hwf. unfold py_or, get.
  destruct (event_data !! "metadataEvent") as [v|] eqn:E1.
  - destruct (Hwf "metadataEvent" v) as [o ->]; [simpl; tauto | exact E1 |].
    destruct (truthy (JObj o)); [eauto|].
    destruct (event_data !! "meteringEvent") as [w|] eqn:E2; [|eauto].
    destruct (Hwf "meteringEvent" w) as [o' ->]; [simpl; tauto | exact E2 | eauto].
  - cbn [truthy].
    destruct (event_data !! "meteringEvent") as [w|] eqn:E2; [|eauto].
    destruct (Hwf "meteringEvent" w) as [o' ->]; [simpl; tauto | exact E2 | eauto].
Qed.

Lemma unmarked_event (event_data : dict) :
  (forall k, In k marker_keys -> event_data !! k = None) ->
  parse_assistant_response_event event_data
  = Ok {[ "type" := JStr "unknown"; "data" := JObj event_data ]}.
Proof.
  intros Hnone. unfold parse_assistant_response_event.
  rewrite !Hnone by (simpl; tauto). reflexivity.
Qed.

(** C3, as the code has it.  An event whose marker keys, where present, hold
    objects is parsed to a dict whose ["type"] is one of the nine kinds; and
    an event with none of the marker keys, whatever else it holds, is parsed
    to the kind [unknown] with the event itself under ["data"]. *)
Theorem parse_event_total_on_objects (event_data : dict) :
  (forall k v, In k marker_keys -> event_data !! k = Some v -> exists o, v = JObj o) ->
  (exists parsed kind,
     parse_assistant_response_event event_data = Ok parsed
     /\ parsed !! "type" = Some (JStr kind)
     /\ In kind canonical_kinds)
  /\ ((forall k, In k marker_keys -> event_data !! k = None) ->
      parse_assistant_response_event event_data
      = Ok {[ "type" := JStr "unknown"; "data" := JObj event_data ]}).
Proof.
  intros Hwf. split; [|apply unmarked_event].
  unfold parse_assistant_response_event.
  destruct (event_data !! "assistantResponseMessage") eqn:E1;
    [marker_case Hwf E1 "message"|].
  destruct (event_data !! "toolUseEvent") eqn:E2; [marker_case Hwf E2 "tool_use"|].
  destruct (bool_decide (is_Some (event_data !! "metadataEvent"))
            || bool_decide (is_Some (event_data !! "meteringEvent"))).
  { destruct (meta_object event_data Hwf) as [o ->].
    cbn [py_get mbind result_bind].
    eexists _, "metadata". split; [reflexivity|].
    split; [apply lookup_insert_eq | simpl; tauto]. }
  destruct (event_data !! "codeEvent") eqn:E3; [marker_case Hwf E3 "code"|].
  destruct (event_data !! "followupPromptEvent") eqn:E4;
    [marker_case Hwf E4 "followup"|].
  destruct (event_data !! "intentsEvent") eqn:E5; [marker_case Hwf E5 "intents"|].
  destruct (event_data !! "invalidStateEvent") eqn:E6; [marker_case Hwf E6 "error"|].
  destruct (event_data !! "supplementaryWebLinksEvent") eqn:E7;
    [marker_case Hwf E7 "web_links"|].
  eexists _, "unknown". split; [reflexivity|].
  split; [apply lookup_insert_eq | simpl; tauto].
Qed.

(** C3, as stated, fails: a marker key that holds a string makes the parser
    raise [AttributeError] at the first [.get]. *)
Lemma parse_event_not_total :
  parse_assistant_response_event {[ "assistantResponseMessage" := JStr "hello" ]}
  = Raise (AttributeError "get").
Proof. vm_compute. reflexivity. Qed.

(** C4, as the code has it.  When no marker of a higher rank is present and
    ["metadataEvent"] holds an object that is not empty, the event is a
    metadata event with the fields of that object, whether ["meteringEvent"]
    is present or not. *)
Theorem metadata_preferred_when_truthy (event_data meta : dict) :
  event_data !! "assistantResponseMessage" = None ->
  event_data !! "toolUseEvent" = None ->
  event_data !! "metadataEvent" = Some (JObj meta) ->
  meta <> ∅ ->
  parse_assistant_response_event event_data = Ok (metadata_event meta).
Proof.
  intros H1 H2 Hm Hne.
  assert (py_or (get event_data "metadataEvent" JNull)
                (get event_data "meteringEvent" (JObj ∅)) = JObj meta) as Hmeta.
  { unfold py_or, get. rewrite Hm. cbn [truthy].
    rewrite bool_decide_eq_false_2 by exact Hne. reflexivity. }
  unfold parse_assistant_response_event. rewrite H1, H2. cbv zeta. rewrite !Hmeta.
  rewrite Hm, bool_decide_eq_true_2 by eauto. reflexivity.
Qed.

(** When ["metadataEvent"] holds a falsy value ([None], an empty object), the
    [or] of line 378 goes on to ["meteringEvent"]. *)
Lemma metering_used_when_metadata_falsy (event_data metering : dict) (v : json) :
  event_data !! "assistantResponseMessage" = None ->
  event_data !! "toolUseEvent" = None ->
  event_data !! "metadataEvent" = Some v ->
  truthy v = false ->
  event_data !! "meteringEvent" = Some (JObj metering) ->
  parse_assistant_response_event event_data = Ok (metadata_event metering).
Proof.
  intros H1 H2 Hm Hf Ht.
  assert (py_or (get event_data "metadataEvent" JNull)
                (get event_data "meteringEvent" (JObj ∅)) = JObj metering) as Hmeta.
  { unfold py_or, get. rewrite Hm, Ht, Hf. reflexivity. }
  unfold parse_assistant_response_event. rewrite H1, H2. cbv zeta. rewrite !Hmeta.
  rewrite Hm, bool_decide_eq_true_2 by eauto. reflexivity.
Qed.

(** C4, as stated, fails: with an empty ["metadataEvent"] object next to a
    ["meteringEvent"], the fields are those of the metering object. *)
Lemma metadata_not_always_preferred :
  let event_data : dict :=
    {[ "metadataEvent" := JObj ∅;
       "meteringEvent" := JObj {[ "totalTokens" := JNum 5 ]} ]} in
  event_data !! "metadataEvent" = Some (JObj ∅)
  /\ event_data !! "meteringEvent" = Some (JObj {[ "totalTokens" := JNum 5 ]})
  /\ parse_assistant_response_event event_data
     = Ok (metadata_event {[ "totalTokens" := JNum 5 ]})
  /\ parse_assistant_response_event event_data <> Ok (metadata_event ∅).
Proof.
  cbv zeta. split; [reflexivity|]. split; [reflexivity|].
  assert (parse_assistant_response_event
            {[ "metadataEvent" := JObj ∅;
               "meteringEvent" := JObj {[ "totalTokens" := JNum 5 ]} ]}
          = Ok (metadata_event {[ "totalTokens" := JNum 5 ]})) as ->
    by (vm_compute; reflexivity).
  split; [reflexivity|].
  intros H.
  assert (metadata_event {[ "totalTokens" := JNum 5 ]} !! "total_tokens"
          = metadata_event ∅ !! "total_tokens") as Hl by congruence.
  vm_compute in Hl. discriminate Hl.
Qed.

(** ** The list of models *)

Lemma mapR_fmap_Ok {A B C} (f : B -> result C) (g : A -> B) (h : A -> C) (l : list A) :
  (forall x, f (g x) = Ok (h x)) -> mapR f (g <$> l) = Ok (h <$> l).
Proof.
  intros H. induction l as [|x l IH]; [reflexivity|].
  cbn [fmap list_fmap mapR]. rewrite H. cbn [mbind result_bind].
  change (list_fmap A B g l) with (g <$> l). rewrite IH. reflexivity.
Qed.

Lemma parse_model_object (default_model : json) (model : dict) :
  parse_model default_model (JObj model) = Ok (model_entry default_model model).
Proof. reflexivity. Qed.

Lemma flagged_model_entry (response_data model : dict) :
  flagged (model_entry (get response_data "defaultModel" JNull) model)
  = names_default response_data model.
Proof.
  unfold model_entry, parse_model, names_default. cbn [py_get mbind result_bind flagged].
  rewrite !lookup_insert_ne by done. rewrite lookup_singleton_eq.
  destruct (py_eq _ _); reflexivity.
Qed.

Lemma default_count_entries (response_data : dict) (models : list dict) :
  default_count (model_entry (get response_data "defaultModel" JNull) <$> models)
  = length (filter (fun m => names_default response_data m = true) models).
Proof.
  unfold default_count. induction models as [|m models IH]; [reflexivity|].
  rewrite fmap_cons, !filter_cons, flagged_model_entry.
  destruct (decide (names_default response_data m = true)); simpl; congruence.
Qed.

(** C5, as the code has it.  For a response whose models are objects, the
    parser returns one entry per model, in order; an entry is flagged as the
    default exactly when its model's name equals the response's declared
    default, so as many entries are flagged as models carry that name. *)
Theorem models_flagged_by_name (response_data : dict) (models : list dict) :
  get response_data "models" (JList []) = JList (JObj <$> models) ->
  exists entries,
    parse_list_models_response response_data = Ok entries
    /\ length entries = length models
    /\ (forall i m, models !! i = Some m ->
          exists e, entries !! i = Some e /\ flagged e = names_default response_data m)
    /\ default_count entries
       = length (filter (fun m => names_default response_data m = true) models).
Proof.
  intros Hmodels.
  exists (model_entry (get response_data "defaultModel" JNull) <$> models).
  split.
  { unfold parse_list_models_response. rewrite Hmodels. cbn [iterate mbind result_bind].
    apply mapR_fmap_Ok, parse_model_object. }
  split; [apply length_fmap|].
  split; [|apply default_count_entries].
  intros i m Hm. eexists. rewrite list_lookup_fmap, Hm.
  split; [reflexivity | apply flagged_model_entry].
Qed.

(** C5, as stated, fails: a response that declares no default (or one that
    names no listed model) has no flagged entry. *)
Lemma no_default_model_flagged :
  exists entries,
    parse_list_models_response
      {[ "models" := JList [ JObj {[ "modelName" := JStr "claude-sonnet-4" ]};
                             JObj {[ "modelName" := JStr "claude-haiku-4" ]} ] ]}
    = Ok entries
    /\ default_count entries = 0%nat.
Proof. eexists. split; vm_compute; reflexivity. Qed.

(** Two models of the same name are both flagged. *)
Example two_default_models_flagged :
  exists entries,
    parse_list_models_response
      {[ "models" := JList [ JObj {[ "modelName" := JStr "auto" ]};
                             JObj {[ "modelName" := JStr "auto" ]} ];
         "defaultModel" := JStr "auto" ]}
    = Ok entries
    /\ default_count entries = 2%nat.
Proof. eexists. split; vm_compute; reflexivity. Qed.

(** ** Headers *)

Import Samples.

Lemma service_targets_nonempty :
  Forall (fun target => target <> EmptyString)
    [ Q_SERVICE_GENERATE_ASSISTANT; Q_SERVICE_INVOKE_MCP; Q_SERVICE_LIST_PROFILES;
      Q_SERVICE_LIST_MODELS; Q_SERVICE_GET_PROFILE; Q_SERVICE_GET_USAGE_LIMITS;
      Q_SERVICE_SEND_TELEMETRY; Q_SERVICE_CREATE_SUBSCRIPTION ].
Proof. repeat constructor; discriminate. Qed.

(** C8.  With a token and an operation target (the name of an operation,
    as each of the [Q_SERVICE_] constants is, so not the empty string), each
    header builder sets [Authorization] to [Bearer <token>] and [x-amz-target]
    to the target.  [get_kiro_headers] called without a target returns the
    same headers but for [x-amz-target], which is left out; all seven headers
    of its template are there. *)
Theorem headers_token_and_target (auth_manager : Utils.KiroAuthManager)
    (token target uuid4 : string) :
  target <> EmptyString ->
  let with_target := Utils.get_kiro_headers auth_manager token (Some target) uuid4 in
  let without := Utils.get_kiro_headers auth_manager token None uuid4 in
  (with_target !! "Authorization" = Some ("Bearer " +:+ token)
   /\ with_target !! "x-amz-target" = Some target)
  /\ (QApi.get_q_api_headers token target uuid4 !! "Authorization"
        = Some ("Bearer " +:+ token)
      /\ QApi.get_q_api_headers token target uuid4 !! "x-amz-target" = Some target)
  /\ (Utils.get_q_api_headers token target uuid4 !! "Authorization"
        = Some ("Bearer " +:+ token)
      /\ Utils.get_q_api_headers token target uuid4 !! "x-amz-target" = Some target)
  /\ without !! "x-amz-target" = None
  /\ without = delete "x-amz-target" with_target
  /\ Forall (fun k => is_Some (without !! k) /\ without !! k = with_target !! k)
       template_headers.
Proof.
  intros Hne. cbv zeta. unfold Utils.get_kiro_headers. cbn [truthy].
  rewrite bool_decide_eq_false_2 by exact Hne. cbn [negb].
  split.
  { split; [rewrite lookup_insert_ne by done; apply lookup_insert_eq
           | apply lookup_insert_eq]. }
  split.
  { unfold QApi.get_q_api_headers.
    split; [apply lookup_insert_eq
           | rewrite !lookup_insert_ne by done; apply lookup_insert_eq]. }
  split.
  { unfold Utils.get_q_api_headers.
    split; [apply lookup_insert_eq
           | rewrite !lookup_insert_ne by done; apply lookup_insert_eq]. }
  match goal with
  | |- ?h !! _ = None /\ _ =>
      assert (h !! "x-amz-target" = None) as Hnone
        by (rewrite !lookup_insert_ne by done; apply lookup_singleton_ne; done)
  end.
  split; [exact Hnone|].
  split; [rewrite delete_insert_eq, delete_id by exact Hnone; reflexivity|].
  unfold template_headers.
  repeat (apply Forall_cons; split;
          [split; [rewrite ?lookup_insert_ne by done;
                   first [rewrite lookup_insert_eq | rewrite lookup_singleton_eq]; eauto
                  | rewrite (lookup_insert_ne _ "x-amz-target") by done; reflexivity]|]).
  apply Forall_nil_2.
Qed.

(** The guard of line 85 tests the target for truth, so an empty string, which
    names no operation, is treated as a target left out. *)
Lemma empty_target_left_out (auth_manager : Utils.KiroAuthManager)
    (token uuid4 : string) :
  Utils.get_kiro_headers auth_manager token (Some EmptyString) uuid4
  = Utils.get_kiro_headers auth_manager token None uuid4.
Proof. reflexivity. Qed.

(** ** The machine fingerprint *)

Lemma string_of_list_length (l : list ascii) :
  String.length (String.string_of_list_ascii l) = length l.
Proof. induction l as [|c l IH]; simpl; congruence. Qed.

Lemma hex_digit_in (x : Z) : In (Sha256.hex_digit x) Sha256.hex_digits.
Proof.
  unfold Sha256.hex_digit. generalize (Z.to_nat (Z.land x 15)). intros n.
  do 16 (destruct n as [|n]; [cbv; repeat first [left; reflexivity | right]|]).
  destruct n; cbv; left; reflexivity.
Qed.

Lemma hex32_digits (x : Z) :
  length (Sha256.hex32 x) = 8%nat
  /\ Forall (fun c => In c Sha256.hex_digits) (Sha256.hex32 x).
Proof.
  split; [reflexivity|]. unfold Sha256.hex32.
  apply Forall_fmap, Forall_forall. intros i _. apply hex_digit_in.
Qed.

Lemma sha256_hexdigest_hex (s : string) : hex_string 64 (Sha256.sha256_hexdigest s).
Proof.
  unfold hex_string, Sha256.sha256_hexdigest.
  rewrite string_of_list_length, String.list_ascii_of_string_of_list_ascii.
  unfold Sha256.hex_of_state. split.
  - rewrite !length_app. repeat rewrite (proj1 (hex32_digits _)). reflexivity.
  - repeat (apply Forall_app; split); apply hex32_digits.
Qed.

Lemma default_fingerprint :
  Sha256.sha256_hexdigest "default-kiro-gateway"
  = "5fc179a07268c41275a137e31c4b5f0f4f7e36f5ed313fc3a8d18602d79f95b2".
Proof. vm_compute. reflexivity. Qed.

Example sha256_abc :
  Sha256.sha256_hexdigest "abc"
  = "ba7816bf8f01cfea414140de5dae2223b00361a396177a9cb410ff61f20015ad".
Proof. vm_compute. reflexivity. Qed.

Example sha256_two_blocks :
  Sha256.sha256_hexdigest
    "aaaaaaaaaaaaaaaaaaaaaaaaaaaaaaaaaaaaaaaaaaaaaaaaaaaaaaaaaaaaaaaa"
  = "ffe054fe7ae0cb6dc65c3af9b61d5209f439851db43d0ba5997337df154668eb".
Proof. vm_compute. reflexivity. Qed.

(** C9.  [get_machine_fingerprint] is a total function of its environment,
    so it returns and never raises.  Two environments that answer the
    hostname and user lookups alike give the same fingerprint, a string of
    64 hexadecimal digits; when a lookup fails the fingerprint is the digest
    of ["default-kiro-gateway"], the same at every call. *)
Theorem machine_fingerprint_stable (env env' : Utils.environment) :
  Utils.gethostname env = Utils.gethostname env' ->
  Utils.getuser env = Utils.getuser env' ->
  Utils.get_machine_fingerprint env = Utils.get_machine_fingerprint env'
  /\ hex_string 64 (Utils.get_machine_fingerprint env)
  /\ (forall hostname username,
        Utils.gethostname env = Ok hostname -> Utils.getuser env = Ok username ->
        Utils.get_machine_fingerprint env
        = Sha256.sha256_hexdigest (hostname +:+ "-" +:+ username +:+ "-kiro-gateway"))
  /\ (~ (is_ok (Utils.gethostname env) /\ is_ok (Utils.getuser env)) ->
      Utils.get_machine_fingerprint env
      = "5fc179a07268c41275a137e31c4b5f0f4f7e36f5ed313fc3a8d18602d79f95b2").
Proof.
  intros Hh Hu. unfold Utils.get_machine_fingerprint. rewrite <- Hh, <- Hu.
  split; [reflexivity|].
  split.
  { destruct (Utils.gethostname env) as [h|], (Utils.getuser env) as [u|];
      cbn [mbind result_bind]; apply sha256_hexdigest_hex. }
  split.
  { intros h u -> ->. reflexivity. }
  intros Hfail.
  destruct (Utils.gethostname env) as [h|] eqn:E1, (Utils.getuser env) as [u|] eqn:E2;
    cbn [mbind result_bind]; try apply default_fingerprint.
  destruct Hfail. split; eexists; reflexivity.
Qed.

(** ** The properties at sample inputs *)


Lemma single_user_message_witness :
  exists cs,
    build_conversation_state [user (JList [text "how"; image; text "so"])]
      "claude-sonnet-4-5" None None "MANUAL" = Ok cs
    /\ cs !! "history" = None
    /\ history_of cs = []
    /\ cs !! "currentMessage"
       = Some (user_message_json
                 (flattened (content_of (user (JList [text "how"; image; text "so"])))))
    /\ (cm ← getitem (JObj cs) "currentMessage"; getitem cm "content")
       = Ok (flattened (content_of (user (JList [text "how"; image; text "so"]))))
    /\ cs = <["currentMessage" :=
                user_message_json
                  (flattened (content_of (user (JList [text "how"; image; text "so"]))))]>
              (conversation_base "MANUAL" None).
Proof. apply single_user_message; vm_compute; reflexivity. Defined.

Example flattened_sample :
  flattened (JList [text "how"; image; text "so"]) = JStr ("how" +:+ nl +:+ "so").
Proof. vm_compute. reflexivity. Qed.

Lemma alternating_messages_witness :
  exists cs,
    build_conversation_state (interleave two_pairs ++ option_list (Some (user (JStr "and then"))))
      "claude-sonnet-4-5" (Some "c-1") None "MANUAL" = Ok cs
    /\ history_of cs
       = (fun p => turn_json (flattened (content_of p.1)) (flattened (content_of p.2)))
           <$> two_pairs
    /\ length (history_of cs) = length two_pairs
    /\ forall u, Some (user (JStr "and then")) = Some u ->
         cs !! "currentMessage" = Some (user_message_json (flattened (content_of u)))
         /\ (cm ← getitem (JObj cs) "currentMessage"; getitem cm "content")
            = Ok (flattened (content_of u)).
Proof.
  apply (alternating_messages two_pairs (Some (user (JStr "and then")))).
  - repeat constructor; vm_compute; reflexivity.
  - repeat constructor; vm_compute; reflexivity.
  - intros u [= <-]. split; vm_compute; reflexivity.
Defined.

Lemma orphan_assistant_dropped_witness :
  build_conversation_state
    ([user (JStr "hi"); assistant (JStr "hello")]
       ++ assistant (JStr "anyone?") :: [user (JStr "yes")])
    "claude-sonnet-4-5" None None "MANUAL"
  = build_conversation_state
      ([user (JStr "hi"); assistant (JStr "hello")] ++ [user (JStr "yes")])
      "claude-sonnet-4-5" None None "MANUAL"
  /\ forall cs,
       build_conversation_state
         ([user (JStr "hi"); assistant (JStr "hello")] ++ [user (JStr "yes")])
         "claude-sonnet-4-5" None None "MANUAL" = Ok cs ->
       exists cs',
         build_conversation_state
           ([user (JStr "hi"); assistant (JStr "hello")]
              ++ assistant (JStr "anyone?") :: [user (JStr "yes")])
           "claude-sonnet-4-5" None None "MANUAL" = Ok cs'
         /\ length (history_of cs') = length (history_of cs).
Proof.
  apply orphan_assistant_dropped.
  - vm_compute. reflexivity.
  - exists (JStr "anyone?"). vm_compute. reflexivity.
  - vm_compute. reflexivity.
Defined.

Lemma parse_event_total_on_objects_witness :
  (exists parsed kind,
     parse_assistant_response_event tool_use_event = Ok parsed
     /\ parsed !! "type" = Some (JStr kind)
     /\ In kind canonical_kinds)
  /\ ((forall k, In k marker_keys -> tool_use_event !! k = None) ->
      parse_assistant_response_event tool_use_event
      = Ok {[ "type" := JStr "unknown"; "data" := JObj tool_use_event ]}).
Proof.
  apply parse_event_total_on_objects.
  intros k v Hk.
  repeat (destruct Hk as [<-|Hk]; [vm_compute; intros [= <-]; eauto|]).
  destruct Hk.
Defined.

Lemma metadata_preferred_when_truthy_witness :
  parse_assistant_response_event both_markers
  = Ok (metadata_event {[ "totalTokens" := JNum 42 ]}).
Proof.
  apply metadata_preferred_when_truthy.
  - vm_compute. reflexivity.
  - vm_compute. reflexivity.
  - vm_compute. reflexivity.
  - intros H. apply (f_equal (fun m : dict => m !! "totalTokens")) in H.
    vm_compute in H. discriminate H.
Defined.

Lemma models_flagged_by_name_witness :
  exists entries,
    parse_list_models_response models_response = Ok entries
    /\ length entries = length two_models
    /\ (forall i m, two_models !! i = Some m ->
          exists e, entries !! i = Some e /\ flagged e = names_default models_response m)
    /\ default_count entries
       = length (filter (fun m => names_default models_response m = true) two_models).
Proof. apply models_flagged_by_name. vm_compute. reflexivity. Defined.

Lemma headers_token_and_target_witness :
  let with_target := Utils.get_kiro_headers auth "abc" (Some "X.Y") "0000-0001" in
  let without := Utils.get_kiro_headers auth "abc" None "0000-0001" in
  (with_target !! "Authorization" = Some ("Bearer " +:+ "abc")
   /\ with_target !! "x-amz-target" = Some "X.Y")
  /\ (QApi.get_q_api_headers "abc" "X.Y" "0000-0001" !! "Authorization"
        = Some ("Bearer " +:+ "abc")
      /\ QApi.get_q_api_headers "abc" "X.Y" "0000-0001" !! "x-amz-target" = Some "X.Y")
  /\ (Utils.get_q_api_headers "abc" "X.Y" "0000-0001" !! "Authorization"
        = Some ("Bearer " +:+ "abc")
      /\ Utils.get_q_api_headers "abc" "X.Y" "0000-0001" !! "x-amz-target" = Some "X.Y")
  /\ without !! "x-amz-target" = None
  /\ without = delete "x-amz-target" with_target
  /\ Forall (fun k => is_Some (without !! k) /\ without !! k = with_target !! k)
       template_headers.
Proof.
  apply (headers_token_and_target auth "abc" "X.Y" "0000-0001").
  discriminate.
Defined.

Lemma machine_fingerprint_stable_witness :
  Utils.get_machine_fingerprint (laptop 0) = Utils.get_machine_fingerprint (laptop 1)
  /\ hex_string 64 (Utils.get_machine_fingerprint (laptop 0))
  /\ (forall hostname username,
        Utils.gethostname (laptop 0) = Ok hostname ->
        Utils.getuser (laptop 0) = Ok username ->
        Utils.get_machine_fingerprint (laptop 0)
        = Sha256.sha256_hexdigest (hostname +:+ "-" +:+ username +:+ "-kiro-gateway"))
  /\ (~ (is_ok (Utils.gethostname (laptop 0)) /\ is_ok (Utils.getuser (laptop 0))) ->
      Utils.get_machine_fingerprint (laptop 0)
      = "5fc179a07268c41275a137e31c4b5f0f4f7e36f5ed313fc3a8d18602d79f95b2").
Proof. apply (machine_fingerprint_stable (laptop 0) (laptop 1)); reflexivity. Defined.

(** * Further properties of the request builder *)

(** ** When the conversation builder raises *)

Lemma flatten_content_raise (content : json) (e : exn) :
  flatten_content content = Raise e -> e = TypeError.
Proof.
  destruct content; try discriminate. simpl.
  generalize (omap text_part l). intros parts.
  induction parts as [|t [|t' parts] IH].
  - discriminate.
  - destruct t; simpl; congruence.
  - destruct t; try (simpl; congruence).
    change (join nl (JStr s :: t' :: parts))
      with (r ← join nl (t' :: parts); Ok (s +:+ nl +:+ r)).
    destruct (join nl (t' :: parts)); simpl in *; [discriminate | exact IH].
Qed.

Lemma flattens_is_ok (msg : dict) :
  flattens msg = true <-> is_ok (flatten_content (content_of msg)).
Proof.
  unfold flattens. destruct (flatten_content (content_of msg)).
  - split; [eexists; reflexivity | reflexivity].
  - split; [discriminate | intros [c [=]]].
Qed.

Lemma pair_step_result (st : pairing) (msg : dict) :
  match pair_step st msg with
  | Ok _ => flattens msg = true
  | Raise e => e = TypeError /\ flattens msg = false
  end.
Proof.
  unfold pair_step, flattens.
  destruct (flatten_content (content_of msg)) eqn:E; cbn [mbind result_bind].
  - destruct (py_eq _ _); [reflexivity|].
    destruct (py_eq _ _); [reflexivity|].
    destruct (py_eq _ _); [|reflexivity].
    destruct (current_message st); reflexivity.
  - split; [eapply flatten_content_raise; eassumption | reflexivity].
Qed.

Lemma pair_messages_result (messages : list dict) (st : pairing) :
  match pair_messages st messages with
  | Ok _ => forallb flattens messages = true
  | Raise e => e = TypeError /\ forallb flattens messages = false
  end.
Proof.
  revert st. induction messages as [|m l IH]; intros st; [reflexivity|].
  cbn [pair_messages forallb].
  pose proof (pair_step_result st m) as H.
  destruct (pair_step st m) as [st'|e]; cbn [mbind result_bind].
  - rewrite H. apply IH.
  - destruct H as [-> ->]. split; reflexivity.
Qed.

Lemma forallb_flattens (messages : list dict) :
  forallb flattens messages = true ->
  Forall (fun m => is_ok (flatten_content (content_of m))) messages.
Proof.
  intros H. apply Forall_forall. intros m Hm. apply flattens_is_ok.
  rewrite forallb_forall in H. apply H. apply list_elem_of_In. exact Hm.
Qed.

(** X1.  The conversation builder flattens the content of every message,
    whatever its role, so it returns exactly when every content can be
    flattened, and what it raises otherwise is a [TypeError]. *)
Theorem build_conversation_state_raises (messages : list dict) (model_id : string)
    (conversation_id profile_arn : option string) (chat_trigger_type : string) :
  match build_conversation_state messages model_id conversation_id profile_arn
          chat_trigger_type with
  | Ok _ => forallb flattens messages = true
  | Raise e => e = TypeError /\ forallb flattens messages = false
  end.
Proof.
  unfold build_conversation_state.
  pose proof (pair_messages_result messages (Pairing [] None)) as H.
  destruct (pair_messages (Pairing [] None) messages) as [st|e];
    cbn [mbind result_bind]; [|exact H].
  destruct (current_message st); [exact H|].
  rewrite last_user_message_nonempty.
  match goal with
  | |- match last_user_message ?l ?c with _ => _ end =>
      destruct (last_user_message_is_ok l c) as [cs ->];
        [apply Forall_reverse, forallb_flattens, H | exact H]
  end.
Qed.

(** ** The shape of the built state *)

Lemma pair_step_shape (st st' : pairing) (msg : dict) :
  pair_step st msg = Ok st' ->
  Forall is_turn (history st) ->
  (forall cm, current_message st = Some cm -> is_user_input_message cm) ->
  Forall is_turn (history st')
  /\ (forall cm, current_message st' = Some cm -> is_user_input_message cm)
  /\ (2 * length (history st') + (if current_message st' is Some _ then 1 else 0)
      <= 2 * length (history st) + (if current_message st is Some _ then 1 else 0) + 1)%nat.
Proof.
  intros H Hh Hc. unfold pair_step in H.
  destruct (flatten_content (content_of msg)) as [c|]; [|discriminate].
  cbn [mbind result_bind] in H.
  destruct (py_eq _ _); [injection H as <-; repeat split; auto; lia|].
  destruct (py_eq _ _).
  { injection H as <-. cbn [history current_message]. repeat split; auto.
    - intros cm [= <-]. exists c. reflexivity.
    - destruct (current_message st); lia. }
  destruct (py_eq _ _); [|injection H as <-; repeat split; auto; lia].
  destruct (current_message st) as [cm|] eqn:E; injection H as <-;
    cbn [history current_message]; [|rewrite E; repeat split; auto; lia].
  repeat split.
  - apply Forall_app. split; [exact Hh|]. repeat constructor.
    destruct (Hc cm eq_refl) as [cu ->]. exists cu, c. reflexivity.
  - intros cm' [=].
  - rewrite length_app. simpl. lia.
Qed.

Lemma pair_messages_shape (messages : list dict) :
  forall st st',
    pair_messages st messages = Ok st' ->
    Forall is_turn (history st) ->
    (forall cm, current_message st = Some cm -> is_user_input_message cm) ->
    Forall is_turn (history st')
    /\ (forall cm, current_message st' = Some cm -> is_user_input_message cm)
    /\ (2 * length (history st') + (if current_message st' is Some _ then 1 else 0)
        <= 2 * length (history st) + (if current_message st is Some _ then 1 else 0)
           + length messages)%nat.
Proof.
  induction messages as [|m l IH]; intros st st' H Hh Hc.
  - injection H as <-. repeat split; auto. simpl. lia.
  - cbn [pair_messages] in H.
    destruct (pair_step st m) as [st1|] eqn:E; [|discriminate].
    cbn [mbind result_bind] in H.
    destruct (pair_step_shape _ _ _ E Hh Hc) as (Hh1 & Hc1 & Hn1).
    destruct (IH _ _ H Hh1 Hc1) as (Hh2 & Hc2 & Hn2).
    repeat split; auto. simpl. lia.
Qed.

Lemma last_user_message_shape (rev_messages : list dict) (cs cs' : dict) :
  last_user_message rev_messages cs = Ok cs' ->
  cs' = cs \/ exists c, cs' = <["currentMessage" := user_input_message c]> cs.
Proof.
  induction rev_messages as [|m l IH]; simpl; intros H.
  - left. congruence.
  - destruct (py_eq _ _); [|auto].
    destruct (flatten_content (content_of m)) as [c|]; [|discriminate].
    injection H as <-. right. eauto.
Qed.

(** The state is the base, then the history when there is one, then the
    current message when there is one. *)
Lemma build_conversation_state_shape (messages : list dict) (model_id : string)
    (conversation_id profile_arn : option string) (chat_trigger_type : string)
    (cs : dict) :
  build_conversation_state messages model_id conversation_id profile_arn
    chat_trigger_type = Ok cs ->
  exists hist,
    Forall is_turn hist
    /\ (2 * length hist <= length messages)%nat
    /\ let with_history :=
         set_if_truthy "history" (Some (JList hist))
           (conversation_base chat_trigger_type conversation_id) in
       cs = with_history
       \/ exists c, cs = <["currentMessage" := user_input_message c]> with_history.
Proof.
  unfold build_conversation_state. intros H.
  destruct (pair_messages (Pairing [] None) messages) as [st|] eqn:E; [|discriminate].
  cbn [mbind result_bind] in H.
  destruct (pair_messages_shape _ _ _ E) as (Hh & Hc & Hn);
    [constructor | intros cm [=] |].
  exists (history st). split; [exact Hh|].
  split; [cbn [history current_message length] in Hn; lia|].
  assert ((match conversation_id with
           | Some cid =>
               if truthy (JStr cid)
               then <["conversationId" := JStr cid]>
                      ({[ "chatTriggerType" := JStr chat_trigger_type ]} : dict)
               else {[ "chatTriggerType" := JStr chat_trigger_type ]}
           | None => {[ "chatTriggerType" := JStr chat_trigger_type ]}
           end) = conversation_base chat_trigger_type conversation_id) as Hb
    by (destruct conversation_id; reflexivity).
  rewrite Hb in H. clear Hb. cbv zeta.
  change (set_if_truthy "history" (Some (JList (history st)))
            (conversation_base chat_trigger_type conversation_id))
    with (if truthy (JList (history st))
          then <["history" := JList (history st)]>
                 (conversation_base chat_trigger_type conversation_id)
          else conversation_base chat_trigger_type conversation_id).
  destruct (current_message st) as [cm|] eqn:Ecm.
  - destruct (Hc cm eq_refl) as [c ->]. injection H as <-. right. eauto.
  - rewrite last_user_message_nonempty in H.
    apply last_user_message_shape in H. exact H.
Qed.

Lemma conversation_base_lookup (chat_trigger_type : string)
    (conversation_id : option string) (k : string) (v : json) :
  conversation_base chat_trigger_type conversation_id !! k = Some v ->
  (k = "chatTriggerType" /\ v = JStr chat_trigger_type)
  \/ (k = "conversationId" /\ exists cid,
        conversation_id = Some cid /\ cid <> EmptyString /\ v = JStr cid).
Proof.
  unfold conversation_base, set_if_truthy.
  destruct conversation_id as [cid|]; cbn [fmap option_fmap option_map truthy].
  - case_bool_decide as Hcid; cbn [negb].
    + rewrite lookup_singleton_Some. intros [<- <-]. auto.
    + rewrite lookup_insert_Some, lookup_singleton_Some.
      intros [[<- <-]|[_ [<- <-]]]; [right; eauto | auto].
  - rewrite lookup_singleton_Some. intros [<- <-]. auto.
Qed.

(** X2.  Whatever the messages, a built state has only the four keys
    [chatTriggerType], [conversationId], [history] and [currentMessage]; the
    trigger type is the one given, and the conversation id is there exactly
    when a non-empty one was given. *)
Theorem conversation_state_keys (messages : list dict) (model_id : string)
    (conversation_id profile_arn : option string) (chat_trigger_type : string)
    (cs : dict) :
  build_conversation_state messages model_id conversation_id profile_arn
    chat_trigger_type = Ok cs ->
  (forall k, is_Some (cs !! k) ->
     In k ["chatTriggerType"; "conversationId"; "history"; "currentMessage"])
  /\ cs !! "chatTriggerType" = Some (JStr chat_trigger_type)
  /\ cs !! "conversationId"
     = match conversation_id with
       | Some cid => if bool_decide (cid = EmptyString) then None else Some (JStr cid)
       | None => None
       end.
Proof.
  intros H. apply build_conversation_state_shape in H as (hist & _ & _ & H).
  cbv zeta in H.
  assert (forall k v,
            set_if_truthy "history" (Some (JList hist))
              (conversation_base chat_trigger_type conversation_id) !! k = Some v ->
            k = "history"
            \/ conversation_base chat_trigger_type conversation_id !! k = Some v) as Hw.
  { intros k v. unfold set_if_truthy. destruct (truthy (JList hist)); [|auto].
    rewrite lookup_insert_Some. intros [[<- _]|[_ ?]]; auto. }
  assert (forall k, k <> "history" -> k <> "currentMessage" ->
            cs !! k = conversation_base chat_trigger_type conversation_id !! k) as Hk.
  { intros k H1 H2. destruct H as [->|[c ->]];
      rewrite ?(lookup_insert_ne _ "currentMessage") by done;
      unfold set_if_truthy; destruct (truthy (JList hist));
      rewrite ?(lookup_insert_ne _ "history") by done; reflexivity. }
  split.
  { intros k [v Hv].
    destruct (decide (k = "currentMessage")) as [->|H1]; [simpl; tauto|].
    destruct (decide (k = "history")) as [->|H2]; [simpl; tauto|].
    rewrite (Hk k H2 H1) in Hv.
    apply conversation_base_lookup in Hv as [[-> _]|[-> _]]; simpl; tauto. }
  rewrite !Hk by done. unfold conversation_base, set_if_truthy.
  destruct conversation_id as [cid|]; cbn [fmap option_fmap option_map truthy].
  - case_bool_decide; cbn [negb]; split;
      rewrite ?lookup_insert_eq, ?lookup_insert_ne by done;
      rewrite ?lookup_singleton_eq, ?lookup_singleton_ne by done; reflexivity.
  - split; [apply lookup_singleton_eq | apply lookup_singleton_ne; done].
Qed.

Lemma history_of_shape (hist : list json) (base : dict) :
  base !! "history" = None ->
  history_of (set_if_truthy "history" (Some (JList hist)) base) = hist
  /\ set_if_truthy "history" (Some (JList hist)) base !! "history" <> Some (JList []).
Proof.
  intros Hb. unfold history_of, set_if_truthy. cbn [truthy].
  case_bool_decide as E; cbn [negb].
  - subst. rewrite Hb. split; [reflexivity | discriminate].
  - rewrite lookup_insert_eq. split; [reflexivity | congruence].
Qed.

Lemma conversation_base_no_history (chat_trigger_type : string)
    (conversation_id : option string) :
  conversation_base chat_trigger_type conversation_id !! "history" = None.
Proof.
  destruct (conversation_base chat_trigger_type conversation_id !! "history") eqn:E;
    [|reflexivity].
  apply conversation_base_lookup in E as [[[=] _]|[[=] _]].
Qed.

Lemma conversation_state_built (messages : list dict) (model_id : string)
    (conversation_id profile_arn : option string) (chat_trigger_type : string)
    (cs : dict) :
  build_conversation_state messages model_id conversation_id profile_arn
    chat_trigger_type = Ok cs ->
  Forall is_turn (history_of cs)
  /\ (forall cm, cs !! "currentMessage" = Some cm -> is_user_input_message cm)
  /\ (2 * length (history_of cs) <= length messages)%nat
  /\ cs !! "history" <> Some (JList []).
Proof.
  intros H. apply build_conversation_state_shape in H as (hist & Hh & Hn & H).
  cbv zeta in H.
  destruct (history_of_shape hist _
              (conversation_base_no_history chat_trigger_type conversation_id))
    as [Hhist Hne].
  assert (set_if_truthy "history" (Some (JList hist))
            (conversation_base chat_trigger_type conversation_id) !! "currentMessage"
          = None) as Hcur.
  { unfold set_if_truthy. destruct (truthy (JList hist));
      rewrite ?lookup_insert_ne by done;
      (destruct (conversation_base chat_trigger_type conversation_id
                   !! "currentMessage") eqn:E; [|reflexivity]);
      apply conversation_base_lookup in E as [[[=] _]|[[=] _]]. }
  destruct H as [->|[c ->]].
  - rewrite Hhist, Hcur. repeat split; auto. intros cm [=].
  - unfold history_of. rewrite lookup_insert_ne by done.
    fold (history_of (set_if_truthy "history" (Some (JList hist))
                        (conversation_base chat_trigger_type conversation_id))).
    rewrite Hhist, lookup_insert_eq. repeat split; auto.
    intros cm [= <-]. exists c. reflexivity.
Qed.

(** X3.  Every turn of the history has the two keys [userInputMessage] and
    [assistantResponseMessage]: the first holds a content and the consent
    setting, the second a content, nothing else.  The current message, when
    there is one, is such a user-input message; there are at most half as many
    turns as messages, and the [history] key never holds an empty list. *)
Theorem conversation_state_well_formed (messages : list dict) (model_id : string)
    (conversation_id profile_arn : option string) (chat_trigger_type : string)
    (cs : dict) :
  build_conversation_state messages model_id conversation_id profile_arn
    chat_trigger_type = Ok cs ->
  Forall (fun t => exists user_content assistant_content,
                     t = turn_json user_content assistant_content) (history_of cs)
  /\ (forall cm, cs !! "currentMessage" = Some cm ->
        exists content, cm = user_message_json content)
  /\ (2 * length (history_of cs) <= length messages)%nat
  /\ cs !! "history" <> Some (JList []).
Proof.
  intros H. apply conversation_state_built in H as (Hh & Hc & Hn & Hne).
  split; [|split; [|split; assumption]].
  - eapply Forall_impl; [exact Hh|]. intros t (cu & ca & ->). exists cu, ca.
    apply turn_of_contents.
  - intros cm Hcm. destruct (Hc cm Hcm) as [c ->]. exists c.
    apply user_input_message_json.
Qed.

(** ** Messages that leave no trace *)

Lemma not_user_explicit (m : dict) :
  py_eq (role_of m) (JStr "user") = false ->
  py_eq (get m "role" JNull) (JStr "user") = false.
Proof.
  unfold role_of, get. destruct (m !! "role"); [auto | discriminate].
Qed.

Lemma build_conversation_state_skip (pre post : list dict) (m : dict)
    (model_id : string) (conversation_id profile_arn : option string)
    (chat_trigger_type : string) :
  (forall st, pair_messages (Pairing [] None) pre = Ok st -> pair_step st m = Ok st) ->
  py_eq (get m "role" JNull) (JStr "user") = false ->
  build_conversation_state (pre ++ m :: post) model_id conversation_id
    profile_arn chat_trigger_type
  = build_conversation_state (pre ++ post) model_id conversation_id
      profile_arn chat_trigger_type.
Proof.
  intros Hstep Hrole. unfold build_conversation_state.
  assert (pair_messages (Pairing [] None) (pre ++ m :: post)
          = pair_messages (Pairing [] None) (pre ++ post)) as ->.
  { rewrite !pair_messages_app.
    destruct (pair_messages (Pairing [] None) pre) as [st|] eqn:E; [|reflexivity].
    cbn [mbind result_bind pair_messages]. rewrite (Hstep st eq_refl). reflexivity. }
  destruct (pair_messages (Pairing [] None) (pre ++ post)) as [st|]; [|reflexivity].
  cbn [mbind result_bind].
  destruct (current_message st); [reflexivity|].
  rewrite !last_user_message_nonempty, !reverse_app, reverse_cons, <- app_assoc.
  cbn [app]. apply last_user_message_skip. exact Hrole.
Qed.

(** X4.  A message whose role is neither [user] nor [assistant] (a [system]
    or [tool] message, say) and whose content can be flattened leaves no trace:
    the builder returns for the list with it what it returns for the list
    without it. *)
Theorem other_role_ignored (pre post : list dict) (m : dict) (model_id : string)
    (conversation_id profile_arn : option string) (chat_trigger_type : string) :
  py_eq (role_of m) (JStr "user") = false ->
  py_eq (role_of m) (JStr "assistant") = false ->
  flattens m = true ->
  build_conversation_state (pre ++ m :: post) model_id conversation_id
    profile_arn chat_trigger_type
  = build_conversation_state (pre ++ post) model_id conversation_id
      profile_arn chat_trigger_type.
Proof.
  intros Hu Ha Hf. apply build_conversation_state_skip; [|apply not_user_explicit, Hu].
  intros st _. unfold pair_step.
  apply flattens_is_ok in Hf as [c ->]. cbn [mbind result_bind].
  rewrite Hu, Ha. destruct (py_eq (role_of m) (JStr "system")); reflexivity.
Qed.

Lemma last_user_message_stop (l1 l2 l2' : list dict) (u : dict) (cs : dict) :
  get u "role" JNull = JStr "user" ->
  last_user_message (l1 ++ u :: l2) cs = last_user_message (l1 ++ u :: l2') cs.
Proof.
  intros Hu. induction l1 as [|m l1 IH]; simpl.
  - rewrite Hu. reflexivity.
  - rewrite IH. reflexivity.
Qed.

Lemma explicit_user_role (u : dict) :
  get u "role" JNull = JStr "user" -> role_of u = JStr "user".
Proof. unfold role_of, get. destruct (u !! "role"); [auto | discriminate]. Qed.

(** X5.  A user-role message whose content can be flattened and that is
    followed at once by another user message (one that carries the role) is
    lost: the builder returns what it returns without the first of the two. *)
Theorem unanswered_user_overwritten (pre post : list dict) (u1 u2 : dict)
    (model_id : string) (conversation_id profile_arn : option string)
    (chat_trigger_type : string) :
  role_of u1 = JStr "user" ->
  flattens u1 = true ->
  get u2 "role" JNull = JStr "user" ->
  build_conversation_state (pre ++ u1 :: u2 :: post) model_id conversation_id
    profile_arn chat_trigger_type
  = build_conversation_state (pre ++ u2 :: post) model_id conversation_id
      profile_arn chat_trigger_type.
Proof.
  intros H1 Hf H2. unfold build_conversation_state.
  assert (pair_messages (Pairing [] None) (pre ++ u1 :: u2 :: post)
          = pair_messages (Pairing [] None) (pre ++ u2 :: post)) as ->.
  { rewrite !pair_messages_app.
    destruct (pair_messages (Pairing [] None) pre) as [st|] eqn:E; [|reflexivity].
    cbn [mbind result_bind pair_messages].
    apply flattens_is_ok in Hf as [c1 Hc1].
    rewrite (pair_step_user st u1 c1 H1 Hc1). cbn [mbind result_bind].
    unfold pair_step. rewrite (explicit_user_role u2 H2).
    destruct (flatten_content (content_of u2)); reflexivity. }
  destruct (pair_messages (Pairing [] None) (pre ++ u2 :: post)) as [st|]; [|reflexivity].
  cbn [mbind result_bind].
  destruct (current_message st); [reflexivity|].
  rewrite !last_user_message_nonempty, !reverse_app, !reverse_cons, <- !app_assoc.
  cbn [app]. apply last_user_message_stop. exact H2.
Qed.

(** X6.  When the list ends with a user message (one that carries the role)
    and the assistant message that answers it, all contents being ones that
    can be flattened, the last turn of the history holds the flattened
    content of that user message under [userInputMessage] and the flattened
    content of the answer under [assistantResponseMessage], and the current
    message is the same user-input message, built anew. *)
Theorem answered_user_is_current_again (pre : list dict) (u a : dict)
    (model_id : string) (conversation_id profile_arn : option string)
    (chat_trigger_type : string) :
  forallb flattens pre = true ->
  get u "role" JNull = JStr "user" ->
  role_of a = JStr "assistant" ->
  flattenable (content_of u) = true ->
  flattenable (content_of a) = true ->
  exists cs,
    build_conversation_state (pre ++ [u; a]) model_id conversation_id
      profile_arn chat_trigger_type = Ok cs
    /\ last (history_of cs)
       = Some (turn_json (flattened (content_of u)) (flattened (content_of a)))
    /\ cs !! "currentMessage"
       = Some (user_message_json (flattened (content_of u))).
Proof.
  intros Hpre Hu Ha Hcu Hca.
  apply flatten_content_flattened in Hcu, Hca.
  set (cu := flattened (content_of u)) in *.
  set (ca := flattened (content_of a)) in *.
  change (turn_json cu ca) with (turn (user_input_message cu) ca).
  change (user_message_json cu) with (user_input_message cu).
  unfold build_conversation_state.
  rewrite pair_messages_app.
  pose proof (pair_messages_result pre (Pairing [] None)) as Hp.
  destruct (pair_messages (Pairing [] None) pre) as [st|e];
    [|destruct Hp as [_ Hp]; congruence].
  cbn [mbind result_bind pair_messages].
  rewrite (pair_step_user st u cu (explicit_user_role u Hu) Hcu).
  cbn [mbind result_bind]. rewrite (pair_step_assistant_paired _ _ a ca Ha Hca).
  cbn [mbind result_bind current_message history].
  rewrite last_user_message_nonempty, reverse_app. cbn [reverse rev_append app].
  change (reverse [u; a]) with [a; u]. cbn [app last_user_message].
  rewrite (role_of_assistant a Ha), Hu, Hcu.
  change (py_eq (JStr "assistant") (JStr "user")) with false.
  change (py_eq (JStr "user") (JStr "user")) with true.
  cbn [mbind result_bind truthy].
  rewrite bool_decide_eq_false_2 by (intros E; apply app_eq_nil in E as [_ [=]]).
  cbn [negb]. eexists. split; [reflexivity|].
  split; [|apply lookup_insert_eq].
  unfold history_of. rewrite lookup_insert_ne by done. rewrite lookup_insert_eq.
  apply last_snoc.
Qed.

Lemma pair_messages_no_user (messages : list dict) :
  Forall (fun m => py_eq (role_of m) (JStr "user") = false) messages ->
  forallb flattens messages = true ->
  pair_messages (Pairing [] None) messages = Ok (Pairing [] None).
Proof.
  induction 1 as [|m l Hm _ IH]; [reflexivity|].
  cbn [forallb]. intros [Hf Hl]%andb_prop. cbn [pair_messages].
  unfold pair_step. apply flattens_is_ok in Hf as [c ->]. cbn [mbind result_bind].
  rewrite Hm.
  destruct (py_eq (role_of m) (JStr "system"));
    [|destruct (py_eq (role_of m) (JStr "assistant"))];
    cbn [current_message mbind result_bind]; apply IH, Hl.
Qed.

Lemma last_user_message_no_user (rev_messages : list dict) (cs : dict) :
  Forall (fun m => py_eq (role_of m) (JStr "user") = false) rev_messages ->
  last_user_message rev_messages cs = Ok cs.
Proof.
  induction 1 as [|m l Hm _ IH]; [reflexivity|].
  simpl. rewrite (not_user_explicit m Hm). exact IH.
Qed.

(** X7.  When no message has the user role (the role a message without a
    [role] key has too), the state is the base alone, with no history and no
    current message, however many assistant messages there are. *)
Theorem no_user_message_no_current (messages : list dict) (model_id : string)
    (conversation_id profile_arn : option string) (chat_trigger_type : string) :
  Forall (fun m => py_eq (role_of m) (JStr "user") = false) messages ->
  forallb flattens messages = true ->
  build_conversation_state messages model_id conversation_id profile_arn
    chat_trigger_type
  = Ok (conversation_base chat_trigger_type conversation_id)
  /\ conversation_base chat_trigger_type conversation_id !! "currentMessage" = None
  /\ conversation_base chat_trigger_type conversation_id !! "history" = None.
Proof.
  intros Hn Hf. split.
  - unfold build_conversation_state.
    rewrite (pair_messages_no_user messages Hn Hf).
    cbn [mbind result_bind current_message history].
    rewrite last_user_message_nonempty.
    rewrite last_user_message_no_user by (apply Forall_reverse; exact Hn).
    destruct conversation_id; reflexivity.
  - split; [|apply conversation_base_no_history].
    destruct (conversation_base chat_trigger_type conversation_id !! "currentMessage")
      eqn:E; [|reflexivity].
    apply conversation_base_lookup in E as [[[=] _]|[[=] _]].
Qed.

(** ** Tools *)

Lemma tool_spec_result (tool : dict) :
  match tool_spec tool with
  | Ok None => is_function_tool tool = false
  | Ok (Some _) => is_function_tool tool = true /\ function_readable tool = true
  | Raise e =>
      e = AttributeError "get"
      /\ is_function_tool tool = true /\ function_readable tool = false
  end.
Proof.
  unfold tool_spec, is_function_tool, function_readable, get.
  destruct (py_eq _ _); [|reflexivity].
  destruct (tool !! "function") as [[]|]; cbn; auto.
Qed.

(** X8.  The tool specs are read off the function tools only: the call
    returns exactly when every function tool has its ["function"] left out or
    an object, with one spec per function tool; otherwise it raises
    [AttributeError]. *)
Theorem tool_specs_result (tools : list dict) :
  match tool_specs_of tools with
  | Ok specs =>
      forallb (fun t => implb (is_function_tool t) (function_readable t)) tools = true
      /\ length specs = length (filter (fun t => is_function_tool t = true) tools)
  | Raise e =>
      e = AttributeError "get"
      /\ forallb (fun t => implb (is_function_tool t) (function_readable t)) tools
         = false
  end.
Proof.
  induction tools as [|t l IH]; [split; reflexivity|].
  cbn [tool_specs_of forallb]. rewrite filter_cons.
  pose proof (tool_spec_result t) as Ht.
  destruct (tool_spec t) as [[s|]|e]; cbn [mbind result_bind].
  - destruct Ht as [Hf Hr]. rewrite Hf, Hr. cbn [implb andb].
    destruct (tool_specs_of l) as [specs|e]; cbn [mbind result_bind]; [|exact IH].
    destruct IH as [IH1 IH2]. split; [exact IH1|].
    rewrite decide_True by reflexivity. simpl. congruence.
  - rewrite Ht. cbn [implb andb].
    destruct (tool_specs_of l) as [specs|e]; cbn [mbind result_bind]; [|exact IH].
    destruct IH as [IH1 IH2]. split; [exact IH1|].
    rewrite decide_False by discriminate. exact IH2.
  - destruct Ht as (-> & Hf & Hr). rewrite Hf, Hr. split; reflexivity.
Qed.

(** X9.  A tool whose type is not ["function"] is skipped, wherever it
    stands in the list and whatever else it holds. *)
Theorem other_tool_skipped (before after : list dict) (tool : dict) :
  is_function_tool tool = false ->
  tool_specs_of (before ++ tool :: after) = tool_specs_of (before ++ after).
Proof.
  intros H. induction before as [|t l IH]; cbn [app tool_specs_of].
  - unfold tool_spec. fold (is_function_tool tool). rewrite H.
    cbn [mbind result_bind]. destruct (tool_specs_of after); reflexivity.
  - rewrite IH. reflexivity.
Qed.

Lemma with_history_no_current (hist : list json) (chat_trigger_type : string)
    (conversation_id : option string) :
  set_if_truthy "history" (Some (JList hist))
    (conversation_base chat_trigger_type conversation_id) !! "currentMessage" = None.
Proof.
  unfold set_if_truthy. destruct (truthy (JList hist));
    rewrite ?lookup_insert_ne by done;
    (destruct (conversation_base chat_trigger_type conversation_id
                 !! "currentMessage") eqn:E; [|reflexivity]);
    apply conversation_base_lookup in E as [[[=] _]|[[=] _]].
Qed.

Lemma request_of_conversation_state (cs : dict) (agent_mode : bool) :
  request_of cs agent_mode !! "conversationState" = Some (JObj cs).
Proof.
  destruct agent_mode; cbn [request_of];
    rewrite ?lookup_insert_ne by done; apply lookup_singleton_eq.
Qed.

Lemma attach_tools_current (cs : dict) (agent_mode : bool) (c : json)
    (specs : list json) :
  cs !! "currentMessage" = Some (user_input_message c) ->
  attach_tools (request_of cs agent_mode) specs
  = Ok (request_of (<["currentMessage" := user_input_message_with_tools c specs]> cs)
          agent_mode).
Proof.
  intros Hcur. unfold attach_tools. cbn [getitem].
  rewrite request_of_conversation_state. cbn [mbind result_bind getitem].
  rewrite Hcur. cbn [mbind result_bind]. unfold user_input_message.
  cbn [getitem]. rewrite lookup_insert_ne by done. rewrite lookup_singleton_eq.
  cbn [mbind result_bind setitem]. f_equal.
  assert (<["userInputMessageContext" :=
              JObj (<["tools" := JList specs]>
                      {[ "userSettings" :=
                           JObj {[ "hasConsentedToCrossRegionCalls" := JBool true ]} ]})]>
            ({[ "content" := c;
                "userInputMessageContext" :=
                  JObj {[ "userSettings" :=
                            JObj {[ "hasConsentedToCrossRegionCalls" := JBool true ]} ]} ]}
               : dict)
          = {[ "content" := c;
               "userInputMessageContext" :=
                 JObj (<["tools" := JList specs]>
                         {[ "userSettings" :=
                              JObj {[ "hasConsentedToCrossRegionCalls" := JBool true ]} ]}) ]})
    as -> by (rewrite insert_insert_ne by done; rewrite insert_singleton_eq; reflexivity).
  fold (user_input_message_with_tools c specs).
  destruct agent_mode; cbn [request_of].
  - rewrite insert_insert_ne by done. rewrite insert_singleton_eq. reflexivity.
  - apply insert_singleton_eq.
Qed.

(** X10.  When the state has a current message and at least one tool is a
    function tool, the request carries the specs under [tools] in the context
    of the current message; the rest of the state, the history with it, and
    the agent-mode flag are as without tools. *)
Theorem tools_attached_to_current_message (messages : list dict) (model_id : string)
    (conversation_id profile_arn : option string) (agent_mode : bool)
    (tool : dict) (tools : list dict) (cs : dict) (cm : json) (specs : list json) :
  build_conversation_state messages model_id conversation_id profile_arn "MANUAL"
    = Ok cs ->
  cs !! "currentMessage" = Some cm ->
  tool_specs_of (tool :: tools) = Ok specs ->
  specs <> [] ->
  exists c,
    cm = user_input_message c
    /\ build_generate_assistant_request messages model_id conversation_id profile_arn
         agent_mode (Some (tool :: tools))
       = Ok (request_of
               (<["currentMessage" := user_input_message_with_tools c specs]> cs)
               agent_mode).
Proof.
  intros Hcs Hcur Hspecs Hne.
  destruct (build_conversation_state_shape _ _ _ _ _ _ Hcs) as (hist & _ & _ & Hshape).
  cbv zeta in Hshape.
  assert (exists c, cm = user_input_message c) as [c ->].
  { destruct Hshape as [->|[c ->]].
    - rewrite with_history_no_current in Hcur. discriminate.
    - rewrite lookup_insert_eq in Hcur. injection Hcur as <-. eauto. }
  exists c. split; [reflexivity|].
  unfold build_generate_assistant_request. rewrite Hcs. cbn [mbind result_bind].
  rewrite Hspecs. cbn [mbind result_bind truthy].
  rewrite bool_decide_eq_false_2 by exact Hne. cbn [negb].
  apply (attach_tools_current cs agent_mode c specs Hcur).
Qed.

Lemma no_function_tool_no_spec (tools : list dict) :
  Forall (fun t => is_function_tool t = false) tools -> tool_specs_of tools = Ok [].
Proof.
  induction 1 as [|t l Ht _ IH]; [reflexivity|].
  cbn [tool_specs_of]. unfold tool_spec. fold (is_function_tool t).
  rewrite Ht, IH. reflexivity.
Qed.

(** X11.  Without tools, with an empty list of tools, or with tools none of
    which is a function tool, the request is the conversation state and the
    agent-mode flag alone: nothing is added to the state. *)
Theorem no_function_tool_no_tools_field (messages : list dict) (model_id : string)
    (conversation_id profile_arn : option string) (agent_mode : bool)
    (tools : option (list dict)) (cs : dict) :
  build_conversation_state messages model_id conversation_id profile_arn "MANUAL"
    = Ok cs ->
  (forall l, tools = Some l -> Forall (fun t => is_function_tool t = false) l) ->
  build_generate_assistant_request messages model_id conversation_id profile_arn
    agent_mode tools
  = Ok (request_of cs agent_mode).
Proof.
  intros Hcs Htools. unfold build_generate_assistant_request.
  rewrite Hcs. cbn [mbind result_bind].
  destruct tools as [[|t l]|]; [reflexivity| |reflexivity].
  rewrite (no_function_tool_no_spec (t :: l) (Htools _ eq_refl)). reflexivity.
Qed.

(** X12.  The request never has other keys than [conversationState] and
    [agentMode], and [agentMode] is there, and true, exactly when agent mode
    is asked for. *)
Theorem request_keys (messages : list dict) (model_id : string)
    (conversation_id profile_arn : option string) (agent_mode : bool)
    (tools : option (list dict)) (request : dict) :
  build_generate_assistant_request messages model_id conversation_id profile_arn
    agent_mode tools = Ok request ->
  (forall k, is_Some (request !! k) -> In k ["conversationState"; "agentMode"])
  /\ is_Some (request !! "conversationState")
  /\ request !! "agentMode" = (if agent_mode then Some (JBool true) else None).
Proof.
  unfold build_generate_assistant_request. intros H.
  destruct (build_conversation_state _ _ _ _ _) as [cs|]; [|discriminate].
  cbn [mbind result_bind] in H.
  fold (request_of cs agent_mode) in H.
  assert (exists cs', request = request_of cs' agent_mode) as [cs' ->].
  { destruct tools as [[|t l]|]; try (injection H as <-; eauto).
    destruct (tool_specs_of (t :: l)) as [specs|]; [|discriminate].
    cbn [mbind result_bind] in H.
    destruct (truthy (JList specs)); [|injection H as <-; eauto].
    unfold attach_tools in H. cbn [getitem] in H.
    rewrite request_of_conversation_state in H. cbn [mbind result_bind] in H.
    destruct (getitem (JObj cs) "currentMessage") as [cm|]; [|discriminate].
    cbn [mbind result_bind] in H.
    destruct (getitem cm "userInputMessageContext") as [ctx|]; [|discriminate].
    cbn [mbind result_bind] in H.
    destruct (setitem ctx _ _) as [ctx'|]; [|discriminate].
    cbn [mbind result_bind] in H.
    destruct (setitem cm _ _) as [cm'|]; [|discriminate].
    cbn [mbind result_bind setitem] in H. injection H as <-.
    exists (<["currentMessage" := cm']> cs). destruct agent_mode; cbn [request_of].
    - rewrite insert_insert_ne by done. rewrite insert_singleton_eq. reflexivity.
    - apply insert_singleton_eq. }
  split; [|split; [rewrite request_of_conversation_state; eauto|]].
  - intros k [v Hv]. destruct agent_mode; cbn [request_of] in Hv.
    + apply lookup_insert_Some in Hv as [[<- _]|[_ Hv]]; [simpl; tauto|].
      apply lookup_singleton_Some in Hv as [<- _]. simpl. tauto.
    + apply lookup_singleton_Some in Hv as [<- _]. simpl. tauto.
  - destruct agent_mode; cbn [request_of];
      [apply lookup_insert_eq | apply lookup_singleton_ne; done].
Qed.

(** ** The user-input message of the SendMessage operation *)

Lemma lookup_set_if_truthy_ne (k k' : string) (value : option json) (d : dict) :
  k <> k' -> set_if_truthy k value d !! k' = d !! k'.
Proof.
  intros H. unfold set_if_truthy. destruct value as [v|]; [|reflexivity].
  destruct (truthy v); [apply lookup_insert_ne; exact H | reflexivity].
Qed.

Lemma lookup_set_if_truthy_eq (k : string) (value : option json) (d : dict) :
  d !! k = None -> set_if_truthy k value d !! k = truthy_value value.
Proof.
  intros H. unfold set_if_truthy, truthy_value. destruct value as [v|]; [|exact H].
  destruct (truthy v); [apply lookup_insert_eq | exact H].
Qed.

(** X13.  With every optional argument left out or empty, in any mix, the
    message is the one the conversation builder makes for a user message:
    the content and the consent setting, nothing else. *)
Theorem plain_user_input_message (content : string) (b1 b2 b3 b4 b5 b6 : bool) :
  JObj (build_user_input_message content
          (empty_or_none EmptyString b1) (empty_or_none ∅ b2) (empty_or_none ∅ b3)
          (empty_or_none ∅ b4) (empty_or_none [] b5) (empty_or_none [] b6))
  = user_input_message (JStr content).
Proof.
  unfold build_user_input_message, user_input_message.
  destruct b1, b2, b3, b4, b5, b6; cbn [empty_or_none fmap option_fmap option_map];
    reflexivity.
Qed.

(** X14.  Each optional argument is stored under its own key exactly when
    it is truthy, and stored as given: the tools are not turned into specs
    here.  The content and the consent setting are always there. *)
Theorem user_input_message_options (content : string) (user_intent : option string)
    (editor_state shell_state env_state : option dict)
    (tool_results tools : option (list dict)) :
  let message :=
    build_user_input_message content user_intent editor_state shell_state env_state
      tool_results tools in
  exists context,
    message !! "userInputMessageContext" = Some (JObj context)
    /\ message !! "content" = Some (JStr content)
    /\ message !! "userIntent" = truthy_value (JStr <$> user_intent)
    /\ context !! "userSettings"
       = Some (JObj {[ "hasConsentedToCrossRegionCalls" := JBool true ]})
    /\ context !! "editorState" = truthy_value (JObj <$> editor_state)
    /\ context !! "shellState" = truthy_value (JObj <$> shell_state)
    /\ context !! "envState" = truthy_value (JObj <$> env_state)
    /\ context !! "toolResults"
       = truthy_value ((fun l => JList (JObj <$> l)) <$> tool_results)
    /\ context !! "tools" = truthy_value ((fun l => JList (JObj <$> l)) <$> tools).
Proof.
  cbv zeta. unfold build_user_input_message. eexists.
  split; [rewrite lookup_set_if_truthy_ne by done; apply lookup_insert_eq|].
  split.
  { rewrite lookup_set_if_truthy_ne by done. rewrite lookup_insert_ne by done.
    apply lookup_singleton_eq. }
  split.
  { apply lookup_set_if_truthy_eq. rewrite lookup_insert_ne by done.
    apply lookup_singleton_ne. done. }
  split.
  { rewrite !lookup_set_if_truthy_ne by done. apply lookup_singleton_eq. }
  repeat split;
    rewrite ?lookup_set_if_truthy_ne by done;
    apply lookup_set_if_truthy_eq;
    rewrite ?lookup_set_if_truthy_ne by done;
    apply lookup_singleton_ne; done.
Qed.

(** ** The list requests *)

(** X15.  Without a model provider, or with an empty one, the request for
    the list of models is the request for the list of profiles: the result
    bound alone.  With a provider it has that one key more. *)
Theorem list_requests_agree (max_results : Z) (none : bool) (provider : string) :
  build_list_models_request max_results (empty_or_none EmptyString none)
  = build_list_profiles_request max_results
  /\ (provider <> EmptyString ->
      build_list_models_request max_results (Some provider)
      = <["modelProvider" := JStr provider]> (build_list_profiles_request max_results)).
Proof.
  split; [destruct none; reflexivity|].
  intros H. unfold build_list_models_request, set_if_truthy.
  cbn [fmap option_fmap option_map truthy].
  rewrite bool_decide_eq_false_2 by exact H. reflexivity.
Qed.

(** ** More on the event parser *)

Lemma raises_only_Ok {A} (a : A) : raises_attribute_error_only (Ok a).
Proof. intros e [=]. Qed.

Lemma raises_only_py_get {B} (v : json) (k : string) (d : json) (f : json -> result B) :
  (forall x, raises_attribute_error_only (f x)) ->
  raises_attribute_error_only (x ← py_get v k d; f x).
Proof.
  intros Hf e. destruct v; cbn [py_get mbind result_bind];
    try (intros [= <-]; reflexivity).
  apply Hf.
Qed.

Ltac raises_only :=
  repeat (apply raises_only_py_get; intros ?); apply raises_only_Ok.

(** X16.  Whatever the event, the parser raises nothing but the
    [AttributeError] of a [.get] on a marker value that is no object: the
    subscripts are guarded by the tests for the key. *)
Theorem parse_event_raises_attribute_error_only (event_data : dict) :
  raises_attribute_error_only (parse_assistant_response_event event_data).
Proof.
  unfold parse_assistant_response_event.
  destruct (event_data !! "assistantResponseMessage"); [raises_only|].
  destruct (event_data !! "toolUseEvent"); [raises_only|].
  destruct (_ || _); [raises_only|].
  destruct (event_data !! "codeEvent"); [raises_only|].
  destruct (event_data !! "followupPromptEvent"); [raises_only|].
  destruct (event_data !! "intentsEvent"); [raises_only|].
  destruct (event_data !! "invalidStateEvent"); [raises_only|].
  destruct (event_data !! "supplementaryWebLinksEvent"); [raises_only|].
  apply raises_only_Ok.
Qed.

(** X17.  A key that is no marker key does not count: as long as the event
    has a marker key, adding or changing any other key leaves the parsed
    event as it was. *)
Theorem other_keys_ignored (event_data : dict) (k : string) (v : json) :
  ~ In k marker_keys ->
  Exists (fun m => is_Some (event_data !! m)) marker_keys ->
  parse_assistant_response_event (<[k := v]> event_data)
  = parse_assistant_response_event event_data.
Proof.
  intros Hk Hex. unfold parse_assistant_response_event, get.
  rewrite !(lookup_insert_ne event_data k)
    by (intros ->; apply Hk; simpl; tauto).
  destruct (event_data !! "assistantResponseMessage") eqn:E1; [reflexivity|].
  destruct (event_data !! "toolUseEvent") eqn:E2; [reflexivity|].
  destruct (event_data !! "metadataEvent") eqn:E3; [reflexivity|].
  destruct (event_data !! "meteringEvent") eqn:E4; [reflexivity|].
  replace (bool_decide (is_Some (@None json))) with false
    by (symmetry; apply bool_decide_eq_false_2; intros [? [=]]).
  cbn [orb].
  destruct (event_data !! "codeEvent") eqn:E5; [reflexivity|].
  destruct (event_data !! "followupPromptEvent") eqn:E6; [reflexivity|].
  destruct (event_data !! "intentsEvent") eqn:E7; [reflexivity|].
  destruct (event_data !! "invalidStateEvent") eqn:E8; [reflexivity|].
  destruct (event_data !! "supplementaryWebLinksEvent") eqn:E9; [reflexivity|].
  exfalso. unfold marker_keys in Hex.
  repeat (apply Exists_cons in Hex as [[x Hx]|Hex]; [congruence|]).
  inversion Hex.
Qed.

(** X18.  When ["metadataEvent"] is missing or falsy, the fields are read
    from ["meteringEvent"], and from nothing when that is missing: an event
    with a null or empty ["metadataEvent"] alone gives a metadata event with
    every field null. *)
Theorem metadata_falls_back (event_data metering : dict) :
  event_data !! "assistantResponseMessage" = None ->
  event_data !! "toolUseEvent" = None ->
  is_Some (event_data !! "metadataEvent") \/ is_Some (event_data !! "meteringEvent") ->
  truthy (get event_data "metadataEvent" JNull) = false ->
  get event_data "meteringEvent" (JObj ∅) = JObj metering ->
  parse_assistant_response_event event_data = Ok (metadata_event metering).
Proof.
  intros H1 H2 Hor Hf Ht.
  assert (py_or (get event_data "metadataEvent" JNull)
                (get event_data "meteringEvent" (JObj ∅)) = JObj metering) as Hmeta
    by (unfold py_or; rewrite Hf; exact Ht).
  unfold parse_assistant_response_event. rewrite H1, H2. cbv zeta. rewrite !Hmeta.
  assert (bool_decide (is_Some (event_data !! "metadataEvent"))
          || bool_decide (is_Some (event_data !! "meteringEvent")) = true) as ->.
  { destruct Hor as [H|H]; rewrite (bool_decide_eq_true_2 _ H);
      [reflexivity | apply orb_true_r]. }
  reflexivity.
Qed.

Ltac field_case H kind :=
  cbv zeta in H;
  match type of H with
  | context [py_get ?m _ _] => destruct m; try discriminate H
  end;
  cbn [py_get mbind result_bind] in H; injection H as <-;
  exists kind; split; [simpl; tauto|]; split; [apply lookup_insert_eq|];
  rewrite !dom_insert_L, dom_singleton_L; cbn [event_fields list_to_set foldr];
  set_solver.

(** X19.  A parsed event names one of the nine kinds under ["type"] and has,
    beside it, exactly the fields of that kind, whatever the marker value
    held. *)
Theorem parsed_event_fields (event_data parsed : dict) :
  parse_assistant_response_event event_data = Ok parsed ->
  exists kind,
    In kind canonical_kinds
    /\ parsed !! "type" = Some (JStr kind)
    /\ dom parsed = list_to_set ("type" :: event_fields kind).
Proof.
  unfold parse_assistant_response_event. intros H.
  destruct (event_data !! "assistantResponseMessage"); [field_case H "message"|].
  destruct (event_data !! "toolUseEvent"); [field_case H "tool_use"|].
  destruct (_ || _); [field_case H "metadata"|].
  destruct (event_data !! "codeEvent"); [field_case H "code"|].
  destruct (event_data !! "followupPromptEvent"); [field_case H "followup"|].
  destruct (event_data !! "intentsEvent"); [field_case H "intents"|].
  destruct (event_data !! "invalidStateEvent"); [field_case H "error"|].
  destruct (event_data !! "supplementaryWebLinksEvent"); [field_case H "web_links"|].
  injection H as <-.
  exists "unknown". split; [simpl; tauto|]. split; [apply lookup_insert_eq|].
  rewrite !dom_insert_L, dom_singleton_L. cbn [event_fields list_to_set foldr].
  set_solver.
Qed.

(** ** More on the list of models *)

Lemma py_eq_JNull (v : json) : py_eq v JNull = true <-> v = JNull.
Proof.
  unfold py_eq. rewrite bool_decide_eq_true. simpl.
  split; [destruct v; simpl; congruence | intros ->; reflexivity].
Qed.

Lemma model_entry_fields (default_model : json) (model : dict) :
  exists o,
    model_entry default_model model = JObj o
    /\ o !! "id" = Some (get model "modelName" (JStr EmptyString))
    /\ o !! "is_default"
       = Some (JBool (py_eq (get model "modelName" JNull) default_model)).
Proof.
  unfold model_entry, parse_model. cbn [py_get mbind result_bind].
  eexists. split; [reflexivity|]. split; [apply lookup_insert_eq|].
  rewrite !lookup_insert_ne by done. apply lookup_singleton_eq.
Qed.

(** X20.  When the response declares no default model, the parser returns one
    entry per model, in order (the i-th entry has the name of the i-th model
    as its id), and the i-th entry is flagged as default exactly when the
    i-th model has no name: a missing default and a missing name are both
    [None], and equal.  So as many entries are flagged as models have no
    name. *)
Theorem nameless_models_flagged (response_data : dict) (models : list dict) :
  get response_data "models" (JList []) = JList (JObj <$> models) ->
  response_data !! "defaultModel" = None ->
  exists entries,
    parse_list_models_response response_data = Ok entries
    /\ length entries = length models
    /\ (forall i m, models !! i = Some m ->
          exists o,
            entries !! i = Some (JObj o)
            /\ o !! "id" = Some (get m "modelName" (JStr EmptyString))
            /\ o !! "is_default"
               = Some (JBool (bool_decide (get m "modelName" JNull = JNull))))
    /\ default_count entries
       = length (filter (fun m => get m "modelName" JNull = JNull) models).
Proof.
  intros Hmodels Hdefault.
  assert (forall m : dict,
            py_eq (get m "modelName" JNull) (get response_data "defaultModel" JNull)
            = bool_decide (get m "modelName" JNull = JNull)) as Hflag.
  { intros m. unfold get at 2. rewrite Hdefault.
    apply eq_true_iff_eq. rewrite py_eq_JNull, bool_decide_eq_true. reflexivity. }
  exists (model_entry (get response_data "defaultModel" JNull) <$> models).
  split.
  { unfold parse_list_models_response. rewrite Hmodels. cbn [iterate mbind result_bind].
    apply mapR_fmap_Ok, parse_model_object. }
  split; [apply length_fmap|]. split.
  { intros i m Hm. rewrite list_lookup_fmap, Hm. cbn [fmap option_fmap option_map].
    destruct (model_entry_fields (get response_data "defaultModel" JNull) m)
      as (o & -> & Hid & Hdef).
    exists o. rewrite Hflag in Hdef. auto. }
  rewrite default_count_entries. f_equal. apply list_filter_iff. intros m.
  unfold names_default. rewrite Hflag, bool_decide_eq_true. reflexivity.
Qed.

Lemma parse_model_result (default_model model : json) :
  match parse_model default_model model with
  | Ok _ => is_object model = true
  | Raise e => e = AttributeError "get" /\ is_object model = false
  end.
Proof. destruct model; cbn; auto. Qed.

(** X21.  For a response whose [models] is a list (or is missing, which
    stands for the empty list), the parser returns exactly when every item is
    an object, with one entry per item; an item that is no object makes it
    raise [AttributeError]. *)
Theorem models_list_result (response_data : dict) (items : list json) :
  get response_data "models" (JList []) = JList items ->
  match parse_list_models_response response_data with
  | Ok entries => forallb is_object items = true /\ length entries = length items
  | Raise e => e = AttributeError "get" /\ forallb is_object items = false
  end.
Proof.
  intros H. unfold parse_list_models_response. rewrite H.
  cbn [iterate mbind result_bind]. clear H.
  generalize (get response_data "defaultModel" JNull). intros d.
  induction items as [|x l IH]; [split; reflexivity|].
  cbn [mapR forallb]. pose proof (parse_model_result d x) as Hx.
  destruct (parse_model d x) as [y|e]; cbn [mbind result_bind].
  - rewrite Hx. cbn [andb].
    destruct (mapR (parse_model d) l) as [ys|e]; cbn [mbind result_bind]; [|exact IH].
    destruct IH as [IH1 IH2]. split; [exact IH1 | simpl; congruence].
  - destruct Hx as [-> ->]. split; reflexivity.
Qed.

(** ** More on the headers *)

Ltac lookup_headers :=
  repeat first
    [ rewrite lookup_insert_eq
    | rewrite lookup_singleton_eq
    | rewrite lookup_insert_ne by congruence
    | rewrite lookup_singleton_ne by congruence
    | rewrite lookup_delete_eq
    | rewrite lookup_delete_ne by congruence ].

(** X22.  The token shows in the [Authorization] header and nowhere else:
    every other header of the three builders is the same for any two tokens. *)
Theorem token_in_authorization_only (auth_manager : Utils.KiroAuthManager)
    (token token' : string) (target : option string) (target' uuid4 k : string) :
  k <> "Authorization" ->
  Utils.get_kiro_headers auth_manager token target uuid4 !! k
  = Utils.get_kiro_headers auth_manager token' target uuid4 !! k
  /\ Utils.get_q_api_headers token target' uuid4 !! k
     = Utils.get_q_api_headers token' target' uuid4 !! k
  /\ QApi.get_q_api_headers token target' uuid4 !! k
     = QApi.get_q_api_headers token' target' uuid4 !! k.
Proof.
  intros Hk. unfold Utils.get_kiro_headers, Utils.get_q_api_headers,
    QApi.get_q_api_headers.
  repeat split.
  - destruct target as [t|]; [destruct (truthy (JStr t))|];
      [destruct (decide (k = "x-amz-target")) as [->|];
         [rewrite !lookup_insert_eq; reflexivity | rewrite !(lookup_insert_ne _ "x-amz-target") by congruence] | |];
      rewrite !(lookup_insert_ne _ "Authorization") by congruence; reflexivity.
  - rewrite !(lookup_insert_ne _ "Authorization") by congruence. reflexivity.
  - rewrite !(lookup_insert_ne _ "Authorization") by congruence. reflexivity.
Qed.

(** X23.  For a non-empty target, the headers of [get_kiro_headers] are
    those of [get_q_api_headers] of [kiro/q_api.py] with one more,
    [x-amz-user-agent]. *)
Theorem kiro_headers_extend_q_api_headers (auth_manager : Utils.KiroAuthManager)
    (token target uuid4 : string) :
  target <> EmptyString ->
  QApi.get_q_api_headers token target uuid4
  = delete "x-amz-user-agent"
      (Utils.get_kiro_headers auth_manager token (Some target) uuid4)
  /\ is_Some (Utils.get_kiro_headers auth_manager token (Some target) uuid4
                !! "x-amz-user-agent").
Proof.
  intros Hne. unfold Utils.get_kiro_headers, QApi.get_q_api_headers. cbn [truthy].
  rewrite bool_decide_eq_false_2 by exact Hne. cbn [negb]. split.
  - apply map_eq. intros k.
    destruct (decide (k = "x-amz-user-agent")) as [->|]; [lookup_headers; reflexivity|].
    destruct (decide (k = "x-amz-target")) as [->|]; [lookup_headers; reflexivity|].
    destruct (decide (k = "Authorization")) as [->|]; [lookup_headers; reflexivity|].
    destruct (decide (k = "Content-Type")) as [->|]; [lookup_headers; reflexivity|].
    destruct (decide (k = "User-Agent")) as [->|]; [lookup_headers; reflexivity|].
    destruct (decide (k = "x-amzn-codewhisperer-optout")) as [->|];
      [lookup_headers; reflexivity|].
    destruct (decide (k = "amz-sdk-invocation-id")) as [->|];
      [lookup_headers; reflexivity|].
    destruct (decide (k = "amz-sdk-request")) as [->|]; [lookup_headers; reflexivity|].
    lookup_headers. reflexivity.
  - lookup_headers. eauto.
Qed.

(** X24.  The two functions called [get_q_api_headers] do not build the same
    headers: the one of [kiro/utils.py] has another [User-Agent] and no
    [x-amzn-codewhisperer-optout]; on every other header they agree. *)
Theorem q_api_headers_differ (token target uuid4 : string) :
  (forall k, k <> "User-Agent" -> k <> "x-amzn-codewhisperer-optout" ->
     QApi.get_q_api_headers token target uuid4 !! k
     = Utils.get_q_api_headers token target uuid4 !! k)
  /\ QApi.get_q_api_headers token target uuid4 !! "User-Agent"
     = Some "AmazonQ-For-CLI/1.23.1"
  /\ Utils.get_q_api_headers token target uuid4 !! "User-Agent"
     = Some "aws-sdk-rust/1.0.0 os/linux lang/rust md/kiro-cli"
  /\ QApi.get_q_api_headers token target uuid4 !! "x-amzn-codewhisperer-optout"
     = Some "false"
  /\ Utils.get_q_api_headers token target uuid4 !! "x-amzn-codewhisperer-optout"
     = None.
Proof.
  unfold QApi.get_q_api_headers, Utils.get_q_api_headers.
  split; [|repeat split; lookup_headers; reflexivity].
  intros k H1 H2.
  destruct (decide (k = "Authorization")) as [->|]; [lookup_headers; reflexivity|].
  destruct (decide (k = "Content-Type")) as [->|]; [lookup_headers; reflexivity|].
  destruct (decide (k = "x-amz-target")) as [->|]; [lookup_headers; reflexivity|].
  destruct (decide (k = "amz-sdk-invocation-id")) as [->|];
    [lookup_headers; reflexivity|].
  destruct (decide (k = "amz-sdk-request")) as [->|]; [lookup_headers; reflexivity|].
  lookup_headers. reflexivity.
Qed.

Lemma substring_prefix (l1 l2 : list ascii) :
  String.substring 0 (length l1) (String.string_of_list_ascii (l1 ++ l2))
  = String.string_of_list_ascii l1.
Proof.
  induction l1 as [|c l1 IH]; cbn [length app String.string_of_list_ascii];
    [destruct l2; reflexivity|].
  cbn [String.substring]. rewrite IH. reflexivity.
Qed.

Lemma hex_digit_not_continuation (c : ascii) :
  In c Sha256.hex_digits -> is_continuation c = false.
Proof.
  cbv [Sha256.hex_digits String.list_ascii_of_string In]. intros H.
  repeat (destruct H as [<-|H]; [reflexivity|]). destruct H.
Qed.

(** On a string of hexadecimal digits, which are one byte each, the first
    characters are the first bytes. *)
Lemma str_prefix_hex (n m : nat) (s : string) :
  hex_string m s -> str_prefix n s = String.substring 0 n s.
Proof.
  intros [_ H]. clear m. revert n.
  induction s as [|c s IH]; intros n; [destruct n; reflexivity|].
  cbn [String.list_ascii_of_string] in H. apply Forall_cons in H as [Hc Hs].
  cbn [str_prefix]. rewrite (hex_digit_not_continuation c Hc).
  destruct n as [|n]; [reflexivity|]. cbn [String.substring].
  rewrite (IH Hs). reflexivity.
Qed.

(** X25.  With the fingerprint of [get_machine_fingerprint], the
    [x-amz-user-agent] header is the fixed product text followed by eight
    hexadecimal digits, the first eight of the fingerprint, whatever the
    host and the user. *)
Theorem user_agent_carries_fingerprint_prefix (env : Utils.environment)
    (token : string) (target : option string) (uuid4 : string) :
  exists digits,
    hex_string 8 digits
    /\ Utils.get_kiro_headers
         {| Utils.fingerprint := Utils.get_machine_fingerprint env |}
         token target uuid4 !! "x-amz-user-agent"
       = Some ("aws-sdk-rust/1.0.0 kiro-gateway-" +:+ digits)
    /\ String.substring 0 8 (Utils.get_machine_fingerprint env) = digits.
Proof.
  assert (forall s, hex_string 8 (String.substring 0 8 (Sha256.sha256_hexdigest s)))
    as Hhex.
  { intros s. unfold Sha256.sha256_hexdigest, Sha256.hex_of_state.
    rewrite <- (proj1 (hex32_digits (Sha256.ha (Sha256.digest (Sha256.encode s))))).
    rewrite substring_prefix. unfold hex_string.
    rewrite string_of_list_length, String.list_ascii_of_string_of_list_ascii.
    apply hex32_digits. }
  exists (String.substring 0 8 (Utils.get_machine_fingerprint env)).
  split; [|split; [|reflexivity]].
  - unfold Utils.get_machine_fingerprint.
    destruct (Utils.gethostname env), (Utils.getuser env);
      cbn [mbind result_bind]; apply Hhex.
  - assert (str_prefix 8 (Utils.get_machine_fingerprint env)
            = String.substring 0 8 (Utils.get_machine_fingerprint env)) as Hp.
    { unfold Utils.get_machine_fingerprint.
      destruct (Utils.gethostname env), (Utils.getuser env);
        cbn [mbind result_bind]; apply (str_prefix_hex 8 64), sha256_hexdigest_hex. }
    unfold Utils.get_kiro_headers. cbn [Utils.fingerprint]. rewrite Hp.
    destruct target as [t|]; [destruct (truthy (JStr t))|];
      lookup_headers; reflexivity.
Qed.

(** ** The fingerprint *)

Lemma append_assoc (a b c : string) : (a +:+ b) +:+ c = a +:+ b +:+ c.
Proof.
  induction a as [|x a IH]; [reflexivity|].
  change (String x ((a +:+ b) +:+ c) = String x (a +:+ b +:+ c)).
  rewrite IH. reflexivity.
Qed.

(** X26.  The host name and the user name are joined with a dash before
    they are hashed, so a dash in either makes two different pairs give the
    same fingerprint: host [h-x] with user [u], and host [h] with user
    [x-u]. *)
Theorem fingerprint_dash_ambiguity (h x u : string) (clock clock' : Z) :
  Utils.get_machine_fingerprint
    (Utils.Environment (Ok (h +:+ "-" +:+ x)) (Ok u) clock)
  = Utils.get_machine_fingerprint
      (Utils.Environment (Ok h) (Ok (x +:+ "-" +:+ u)) clock').
Proof.
  unfold Utils.get_machine_fingerprint.
  cbn [Utils.gethostname Utils.getuser mbind result_bind].
  f_equal. rewrite !append_assoc. reflexivity.
Qed.

(** ** Generated identifiers *)

Lemma hex_digit_not_dash (x : Z) : Sha256.hex_digit x <> "-"%char.
Proof.
  pose proof (hex_digit_in x) as H. intros E. rewrite E in H.
  cbv in H. repeat (destruct H as [H|H]; [discriminate H|]). exact H.
Qed.

Lemma uuid_hex_digits (int : Z) : hex_string 32 (Utils.uuid_hex int).
Proof.
  unfold hex_string, Utils.uuid_hex.
  rewrite string_of_list_length, String.list_ascii_of_string_of_list_ascii.
  split; [reflexivity|].
  apply Forall_fmap, Forall_forall. intros i _. apply hex_digit_in.
Qed.

Lemma uuid_str_without_dashes (int : Z) :
  without_dashes (Utils.uuid_str int) = Utils.uuid_hex int.
Proof.
  unfold without_dashes.
  match goal with
  | |- context [filter ?P ?l] =>
      let l' := eval cbv -[Sha256.hex_digit Z.shiftr] in l in change l with l'
  end.
  repeat first
    [ rewrite filter_cons_True by apply hex_digit_not_dash
    | rewrite filter_cons_False by (intros H; apply H; reflexivity) ].
  reflexivity.
Qed.

(** X27.  The three identifiers made from one uuid show the same 32
    hexadecimal digits: the completion id has them all after [chatcmpl-], the
    conversation id has them in 36 characters with dashes between, and the
    tool-call id has the first eight after [call_]. *)
Theorem identifiers_share_digits (uuid4 : Z) :
  exists digits,
    hex_string 32 digits
    /\ Utils.generate_completion_id uuid4 = "chatcmpl-" +:+ digits
    /\ Utils.generate_tool_call_id uuid4 = "call_" +:+ String.substring 0 8 digits
    /\ without_dashes (Utils.generate_conversation_id uuid4) = digits
    /\ String.length (Utils.generate_conversation_id uuid4) = 36%nat
    /\ String.substring 0 8 (Utils.generate_conversation_id uuid4)
       = String.substring 0 8 digits.
Proof.
  exists (Utils.uuid_hex uuid4).
  split; [apply uuid_hex_digits|]. split; [reflexivity|]. split; [reflexivity|].
  split; [apply uuid_str_without_dashes|]. split; reflexivity.
Qed.

(** X28.  A tool-call id keeps only the 32 highest bits of the 128 of its
    uuid: two uuids that agree on them give the same id. *)
Theorem tool_call_id_top_bits (uuid4 uuid4' : Z) :
  Z.shiftr uuid4 96 = Z.shiftr uuid4' 96 ->
  Utils.generate_tool_call_id uuid4 = Utils.generate_tool_call_id uuid4'.
Proof.
  intros H.
  assert (forall k, (0 <= k)%Z ->
            Z.shiftr uuid4 (96 + k) = Z.shiftr uuid4' (96 + k)) as Hk.
  { intros k Hk. rewrite <- !Z.shiftr_shiftr by exact Hk. rewrite H. reflexivity. }
  unfold Utils.generate_tool_call_id. f_equal.
  cbv -[Sha256.hex_digit Z.shiftr].
  rewrite (Hk 28%Z ltac:(lia) : Z.shiftr uuid4 124 = Z.shiftr uuid4' 124).
  rewrite (Hk 24%Z ltac:(lia) : Z.shiftr uuid4 120 = Z.shiftr uuid4' 120).
  rewrite (Hk 20%Z ltac:(lia) : Z.shiftr uuid4 116 = Z.shiftr uuid4' 116).
  rewrite (Hk 16%Z ltac:(lia) : Z.shiftr uuid4 112 = Z.shiftr uuid4' 112).
  rewrite (Hk 12%Z ltac:(lia) : Z.shiftr uuid4 108 = Z.shiftr uuid4' 108).
  rewrite (Hk 8%Z ltac:(lia) : Z.shiftr uuid4 104 = Z.shiftr uuid4' 104).
  rewrite (Hk 4%Z ltac:(lia) : Z.shiftr uuid4 100 = Z.shiftr uuid4' 100).
  rewrite (Hk 0%Z ltac:(lia) : Z.shiftr uuid4 96 = Z.shiftr uuid4' 96).
  reflexivity.
Qed.

Lemma hex_digit_inj (x y : Z) :
  Sha256.hex_digit x = Sha256.hex_digit y -> Z.land x 15 = Z.land y 15.
Proof.
  unfold Sha256.hex_digit. intros H.
  assert (forall z, (0 <= Z.land z 15 < 16)%Z) as Hb.
  { intros z. change 15%Z with (Z.ones 4). rewrite Z.land_ones by lia.
    apply Z.mod_pos_bound. reflexivity. }
  apply Z2Nat.inj; [apply Hb | apply Hb |].
  assert (List.NoDup Sha256.hex_digits) as Hnd.
  { apply NoDup_ListNoDup. apply (bool_decide_unpack _). vm_compute. reflexivity. }
  apply (proj1 (List.NoDup_nth Sha256.hex_digits "0"%char) Hnd); [| |exact H].
  - change (length Sha256.hex_digits) with 16%nat. pose proof (Hb x). lia.
  - change (length Sha256.hex_digits) with 16%nat. pose proof (Hb y). lia.
Qed.

Lemma nibble_step (x y : Z) :
  Z.shiftr x 4 = Z.shiftr y 4 -> Z.land x 15 = Z.land y 15 -> x = y.
Proof.
  change 15%Z with (Z.ones 4). rewrite !Z.land_ones, !Z.shiftr_div_pow2 by lia.
  change (2 ^ 4)%Z with 16%Z. intros Hd Hm.
  rewrite (Z.div_mod x 16), (Z.div_mod y 16) by lia. congruence.
Qed.

Lemma fmap_eq_inv {A B} (f g : A -> B) (l : list A) :
  f <$> l = g <$> l -> forall x, x ∈ l -> f x = g x.
Proof.
  induction l as [|a l IH]; intros H x Hx; [inversion Hx|].
  injection H as Ha Hl. apply elem_of_cons in Hx as [->|Hx]; auto.
Qed.

(** X29.  A conversation id tells its uuid: two 128-bit uuids with the same
    conversation id are the same. *)
Theorem conversation_id_injective (uuid4 uuid4' : Z) :
  (0 <= uuid4 < 2 ^ 128)%Z ->
  (0 <= uuid4' < 2 ^ 128)%Z ->
  Utils.generate_conversation_id uuid4 = Utils.generate_conversation_id uuid4' ->
  uuid4 = uuid4'.
Proof.
  intros Hu Hu' H. unfold Utils.generate_conversation_id in H.
  apply (f_equal without_dashes) in H. rewrite !uuid_str_without_dashes in H.
  unfold Utils.uuid_hex in H.
  apply (f_equal String.list_ascii_of_string) in H.
  rewrite !String.list_ascii_of_string_of_list_ascii in H.
  pose proof (fmap_eq_inv _ _ _ H) as Hd. clear H.
  assert (forall i, (i < 32)%nat ->
            Z.land (Z.shiftr uuid4 (4 * Z.of_nat i)) 15
            = Z.land (Z.shiftr uuid4' (4 * Z.of_nat i)) 15) as Hn.
  { intros i Hi. apply hex_digit_inj, Hd.
    apply elem_of_reverse, elem_of_seq. lia. }
  clear Hd.
  assert (forall n i, (n + i = 32)%nat ->
            Z.shiftr uuid4 (4 * Z.of_nat i) = Z.shiftr uuid4' (4 * Z.of_nat i)) as Hs.
  { induction n as [|n IH]; intros i Hi.
    - assert (i = 32%nat) as -> by lia.
      rewrite !Z.shiftr_div_pow2 by lia.
      change (4 * Z.of_nat 32)%Z with 128%Z.
      rewrite !Z.div_small by assumption. reflexivity.
    - apply nibble_step; [|apply Hn; lia].
      rewrite !Z.shiftr_shiftr by lia.
      replace (4 * Z.of_nat i + 4)%Z with (4 * Z.of_nat (S i))%Z by lia.
      apply IH. lia. }
  specialize (Hs 32%nat 0%nat eq_refl). exact Hs.
Qed.

(** ** The further properties at sample inputs *)

Lemma conversation_state_keys_witness :
  (forall k,
     is_Some (({[ "chatTriggerType" := JStr "MANUAL";
                  "conversationId" := JStr "c-1";
                  "currentMessage" := user_input_message (JStr "hi") ]} : dict) !! k) ->
     In k ["chatTriggerType"; "conversationId"; "history"; "currentMessage"])
  /\ ({[ "chatTriggerType" := JStr "MANUAL";
         "conversationId" := JStr "c-1";
         "currentMessage" := user_input_message (JStr "hi") ]} : dict)
       !! "chatTriggerType" = Some (JStr "MANUAL")
  /\ ({[ "chatTriggerType" := JStr "MANUAL";
         "conversationId" := JStr "c-1";
         "currentMessage" := user_input_message (JStr "hi") ]} : dict)
       !! "conversationId"
     = (if bool_decide ("c-1" = EmptyString) then None else Some (JStr "c-1")).
Proof.
  apply (conversation_state_keys [user (JStr "hi")] "claude-sonnet-4-5"
           (Some "c-1") None "MANUAL").
  vm_compute. reflexivity.
Defined.

Lemma conversation_state_well_formed_witness :
  exists cs,
    build_conversation_state (interleave two_pairs) "claude-sonnet-4-5" None None
      "MANUAL" = Ok cs
    /\ Forall (fun t => exists user_content assistant_content,
                          t = turn_json user_content assistant_content) (history_of cs)
    /\ (forall cm, cs !! "currentMessage" = Some cm ->
          exists content, cm = user_message_json content)
    /\ (2 * length (history_of cs) <= length (interleave two_pairs))%nat
    /\ cs !! "history" <> Some (JList []).
Proof.
  destruct (build_conversation_state (interleave two_pairs) "claude-sonnet-4-5"
              None None "MANUAL") as [cs|e] eqn:E; [|vm_compute in E; discriminate E].
  exists cs. split; [reflexivity|].
  apply (conversation_state_well_formed (interleave two_pairs) "claude-sonnet-4-5"
           None None "MANUAL" cs E).
Defined.

Lemma other_role_ignored_witness :
  build_conversation_state ([] ++ system_message :: [user (JStr "hi")])
    "claude-sonnet-4-5" None None "MANUAL"
  = build_conversation_state ([] ++ [user (JStr "hi")])
      "claude-sonnet-4-5" None None "MANUAL".
Proof. apply other_role_ignored; vm_compute; reflexivity. Defined.

Lemma unanswered_user_overwritten_witness :
  build_conversation_state
    ([] ++ user (JStr "first") :: user (JStr "second") :: [assistant (JStr "ok")])
    "claude-sonnet-4-5" None None "MANUAL"
  = build_conversation_state
      ([] ++ user (JStr "second") :: [assistant (JStr "ok")])
      "claude-sonnet-4-5" None None "MANUAL".
Proof. apply unanswered_user_overwritten; vm_compute; reflexivity. Defined.

Lemma answered_user_is_current_again_witness :
  exists cs,
    build_conversation_state ([system_message] ++ [user (JStr "hi"); assistant (JStr "hello")])
      "claude-sonnet-4-5" None None "MANUAL" = Ok cs
    /\ last (history_of cs) = Some (turn_json (JStr "hi") (JStr "hello"))
    /\ cs !! "currentMessage" = Some (user_message_json (JStr "hi")).
Proof.
  apply (answered_user_is_current_again [system_message] (user (JStr "hi"))
           (assistant (JStr "hello")));
    vm_compute; reflexivity.
Defined.

Lemma no_user_message_no_current_witness :
  build_conversation_state [system_message; assistant (JStr "hello")]
    "claude-sonnet-4-5" (Some "c-1") None "MANUAL"
  = Ok (conversation_base "MANUAL" (Some "c-1"))
  /\ conversation_base "MANUAL" (Some "c-1") !! "currentMessage" = None
  /\ conversation_base "MANUAL" (Some "c-1") !! "history" = None.
Proof.
  apply no_user_message_no_current; [|vm_compute; reflexivity].
  repeat constructor; vm_compute; reflexivity.
Defined.

Lemma other_tool_skipped_witness :
  tool_specs_of ([weather_tool] ++ retrieval_tool :: [weather_tool])
  = tool_specs_of ([weather_tool] ++ [weather_tool]).
Proof. apply other_tool_skipped. vm_compute. reflexivity. Defined.

Lemma tools_attached_to_current_message_witness :
  exists c,
    user_input_message (JStr "hi") = user_input_message c
    /\ build_generate_assistant_request [user (JStr "hi")] "claude-sonnet-4-5" None None
         true (Some (retrieval_tool :: [weather_tool]))
       = Ok (request_of
               (<["currentMessage" := user_input_message_with_tools c [weather_spec]]>
                  ({[ "chatTriggerType" := JStr "MANUAL";
                      "currentMessage" := user_input_message (JStr "hi") ]} : dict))
               true).
Proof.
  apply (tools_attached_to_current_message [user (JStr "hi")] "claude-sonnet-4-5"
           None None true retrieval_tool [weather_tool]).
  - vm_compute. reflexivity.
  - vm_compute. reflexivity.
  - vm_compute. reflexivity.
  - discriminate.
Defined.

Lemma no_function_tool_no_tools_field_witness :
  build_generate_assistant_request [user (JStr "hi")] "claude-sonnet-4-5" None None
    false (Some [retrieval_tool])
  = Ok (request_of ({[ "chatTriggerType" := JStr "MANUAL";
                       "currentMessage" := user_input_message (JStr "hi") ]} : dict)
          false).
Proof.
  apply no_function_tool_no_tools_field; [vm_compute; reflexivity|].
  intros l [= <-]. repeat constructor.
Defined.

Lemma request_keys_witness :
  exists request,
    build_generate_assistant_request [user (JStr "hi")] "claude-sonnet-4-5" None None
      true (Some [weather_tool]) = Ok request
    /\ (forall k, is_Some (request !! k) -> In k ["conversationState"; "agentMode"])
    /\ is_Some (request !! "conversationState")
    /\ request !! "agentMode" = Some (JBool true).
Proof.
  destruct (build_generate_assistant_request [user (JStr "hi")] "claude-sonnet-4-5"
              None None true (Some [weather_tool])) as [request|e] eqn:E;
    [|vm_compute in E; discriminate E].
  exists request. split; [reflexivity|].
  apply (request_keys [user (JStr "hi")] "claude-sonnet-4-5" None None true
           (Some [weather_tool]) request E).
Defined.

Lemma parse_event_raises_attribute_error_only_witness :
  parse_assistant_response_event {[ "codeEvent" := JNull ]} = Raise (AttributeError "get")
  /\ AttributeError "get" = AttributeError "get".
Proof.
  split; [vm_compute; reflexivity|].
  apply (parse_event_raises_attribute_error_only {[ "codeEvent" := JNull ]}).
  vm_compute. reflexivity.
Defined.

Lemma other_keys_ignored_witness :
  parse_assistant_response_event (<["requestId" := JStr "r-1"]> tool_use_event)
  = parse_assistant_response_event tool_use_event.
Proof.
  apply other_keys_ignored.
  - intros H. repeat (destruct H as [H|H]; [discriminate H|]). exact H.
  - apply Exists_cons_tl, Exists_cons_hd. vm_compute. eauto.
Defined.

Lemma metadata_falls_back_witness :
  parse_assistant_response_event {[ "metadataEvent" := JNull ]}
  = Ok (metadata_event ∅).
Proof.
  apply metadata_falls_back.
  - vm_compute. reflexivity.
  - vm_compute. reflexivity.
  - left. vm_compute. eauto.
  - vm_compute. reflexivity.
  - vm_compute. reflexivity.
Defined.

Lemma parsed_event_fields_witness :
  exists parsed kind,
    parse_assistant_response_event tool_use_event = Ok parsed
    /\ In kind canonical_kinds
    /\ parsed !! "type" = Some (JStr kind)
    /\ dom parsed = list_to_set ("type" :: event_fields kind).
Proof.
  destruct (parse_assistant_response_event tool_use_event) as [parsed|e] eqn:E;
    [|vm_compute in E; discriminate E].
  destruct (parsed_event_fields tool_use_event parsed E) as (kind & H).
  exists parsed, kind. split; [reflexivity | exact H].
Defined.

Lemma nameless_models_flagged_witness :
  exists entries,
    parse_list_models_response
      {[ "models" := JList (JObj <$> [ ∅; {[ "modelName" := JStr "auto" ]} ]) ]}
    = Ok entries
    /\ length entries = length [ (∅ : dict); {[ "modelName" := JStr "auto" ]} ]
    /\ (forall i m, [ (∅ : dict); {[ "modelName" := JStr "auto" ]} ] !! i = Some m ->
          exists o,
            entries !! i = Some (JObj o)
            /\ o !! "id" = Some (get m "modelName" (JStr EmptyString))
            /\ o !! "is_default"
               = Some (JBool (bool_decide (get m "modelName" JNull = JNull))))
    /\ default_count entries
       = length (filter (fun m => get m "modelName" JNull = JNull)
                   [ (∅ : dict); {[ "modelName" := JStr "auto" ]} ]).
Proof. apply nameless_models_flagged; vm_compute; reflexivity. Defined.

Lemma models_list_result_witness :
  match parse_list_models_response {[ "models" := JList [JObj ∅; JStr "auto"] ]} with
  | Ok entries =>
      forallb is_object [JObj ∅; JStr "auto"] = true
      /\ length entries = length [JObj ∅; JStr "auto"]
  | Raise e =>
      e = AttributeError "get" /\ forallb is_object [JObj ∅; JStr "auto"] = false
  end.
Proof. apply models_list_result. vm_compute. reflexivity. Defined.

Lemma token_in_authorization_only_witness :
  Utils.get_kiro_headers auth "abc" (Some "X.Y") "0000-0001" !! "x-amz-target"
  = Utils.get_kiro_headers auth "xyz" (Some "X.Y") "0000-0001" !! "x-amz-target"
  /\ Utils.get_q_api_headers "abc" "X.Y" "0000-0001" !! "x-amz-target"
     = Utils.get_q_api_headers "xyz" "X.Y" "0000-0001" !! "x-amz-target"
  /\ QApi.get_q_api_headers "abc" "X.Y" "0000-0001" !! "x-amz-target"
     = QApi.get_q_api_headers "xyz" "X.Y" "0000-0001" !! "x-amz-target".
Proof. apply token_in_authorization_only. discriminate. Defined.

Lemma kiro_headers_extend_q_api_headers_witness :
  QApi.get_q_api_headers "abc" "X.Y" "0000-0001"
  = delete "x-amz-user-agent"
      (Utils.get_kiro_headers auth "abc" (Some "X.Y") "0000-0001")
  /\ is_Some (Utils.get_kiro_headers auth "abc" (Some "X.Y") "0000-0001"
                !! "x-amz-user-agent").
Proof. apply kiro_headers_extend_q_api_headers. discriminate. Defined.

Lemma tool_call_id_top_bits_witness :
  Utils.generate_tool_call_id 0x0123456789abcdef0123456789abcdef
  = Utils.generate_tool_call_id 0x01234567ffffffffffffffffffffffff.
Proof. apply tool_call_id_top_bits. vm_compute. reflexivity. Defined.

Lemma conversation_id_injective_witness :
  Utils.generate_conversation_id 0x0123456789abcdef0123456789abcdef
  = Utils.generate_conversation_id (0x0123456789abcdef0123456789abcde0 + 15)
  /\ (0x0123456789abcdef0123456789abcdef
      = 0x0123456789abcdef0123456789abcde0 + 15)%Z.
Proof.
  split; [vm_compute; reflexivity|].
  apply conversation_id_injective; [lia | lia | vm_compute; reflexivity].
Defined.
